(** * Document Q&A with AI: the React client and the retrieval core

    A shallow embedding of the client code (contexts/DocumentContext.js and
    the pages QA, Search, Upload and Documents) and, for the parts of the
    pipeline that live in the Python backend, of the design document's
    chunker, distance-to-similarity transform and retriever.

    Conventions of the embedding:
    - a JavaScript string is a [string]; [trim] and [substring] work on its
      characters;
    - a JavaScript number that the code only compares or rounds is a
      rational [Q]; a field that may be missing ([undefined], [null]) is an
      [option];
    - a request body (a JavaScript object literal) is a [gmap string JsonVal];
    - React state is threaded explicitly; the effects of a handler (HTTP
      requests, toasts) are logged by a small state monad [Eff];
    - JSX is a tree of [Node]s. *)

From Stdlib Require Import ZArith QArith Qround List String Ascii Bool Lia Lqa Permutation Sorted.
From stdpp Require Import gmap strings list fin_maps.
Import ListNotations.

(** ** Sorting by insertion, shared by the engine model and the index *)

Module Insertion.
Section Insertion.
Context {A : Type} (before : A -> A -> bool).

Fixpoint insert (x : A) (l : list A) : list A :=
  match l with
  | [] => [x]
  | y :: l' => if before x y then x :: y :: l' else y :: insert x l'
  end.

Definition sort (l : list A) : list A :=
  fold_left (fun acc x => insert x acc) l [].

End Insertion.
End Insertion.

(** ** JavaScript values and built-ins used by the client *)

Module Js.

(** [s || d] on strings: the empty string is falsy. *)
Definition str_or (s d : string) : string :=
  if String.eqb s "" then d else s.

(** [x || d] where [x] is a possibly missing string. *)
Definition ostr_or (x : option string) (d : string) : string :=
  match x with
  | Some s => str_or s d
  | None => d
  end.

(** [x || d] where [x] is a possibly missing number: [0] is falsy too. *)
Definition num_or (x : option Q) (d : Q) : Q :=
  match x with
  | Some q => if Qeq_bool q 0 then d else q
  | None => d
  end.

(** [x || null] on a possibly missing number. *)
Definition num_or_null (x : option Q) : option Q :=
  match x with
  | Some q => if Qeq_bool q 0 then None else Some q
  | None => None
  end.

(** [xs || []] on a possibly missing array (every array is truthy). *)
Definition arr_or_empty {A : Type} (x : option (list A)) : list A :=
  match x with
  | Some l => l
  | None => []
  end.

(** White space stripped by [String.prototype.trim], in the ASCII range:
    tab, line feed, vertical tab, form feed, carriage return and space. *)
Definition is_white (c : ascii) : bool :=
  let n := nat_of_ascii c in
  Nat.eqb n 32 || (Nat.leb 9 n && Nat.leb n 13).

Fixpoint trim_start (s : string) : string :=
  match s with
  | EmptyString => EmptyString
  | String c s' => if is_white c then trim_start s' else s
  end.

Fixpoint trim_end (s : string) : string :=
  match s with
  | EmptyString => EmptyString
  | String c s' =>
      let t := trim_end s' in
      if is_white c && String.eqb t "" then EmptyString else String c t
  end.

Definition trim (s : string) : string := trim_end (trim_start s).

(** [Math.round]: the nearest integer, halves rounded up. *)
Definition math_round (q : Q) : Z := Qfloor (q + (1 # 2)).

(** [Array.prototype.sort(cmp)].  Only the sign of [cmp x y] is used:
    a negative value asks for [x] before [y].  The comparators of this
    client never return [0], so they are not consistent comparators in
    the sense of ECMAScript and the language leaves the order to the
    engine; the model is the insertion sort engines run on short arrays:
    each element in turn is placed in the sorted prefix, in front of the
    first element the comparator puts it before. *)
Definition array_sort {A : Type} (cmp : A -> A -> Z) (l : list A) : list A :=
  Insertion.sort (fun x y => (cmp x y <? 0)%Z) l.

End Js.

(** ** JSX output *)

#[warnings="-register-all"]
Inductive Node : Type :=
| NText (s : string)
| NInt (z : Z)
| NElem (tag className : string) (children : list Node).

(** The text nodes of a tree, in document order. *)
Fixpoint text_nodes (n : Node) : list string :=
  match n with
  | NText s => [s]
  | NInt _ => []
  | NElem _ _ cs => flat_map text_nodes cs
  end.

(** ** The Documents page *)

Module Documents.

Definition getStatusIcon (status : string) : Node :=
  if String.eqb status "processed" then
    NElem "CheckCircle" "h-4 w-4 text-green-600" []
  else if String.eqb status "processing" then
    NElem "Loader2" "h-4 w-4 text-blue-600 animate-spin" []
  else if String.eqb status "error" then
    NElem "AlertCircle" "h-4 w-4 text-red-600" []
  else
    NElem "Clock" "h-4 w-4 text-yellow-600" [].

Definition getStatusColor (status : string) : string :=
  if String.eqb status "processed" then "bg-green-100 text-green-800"
  else if String.eqb status "processing" then "bg-blue-100 text-blue-800"
  else if String.eqb status "error" then "bg-red-100 text-red-800"
  else "bg-yellow-100 text-yellow-800".

End Documents.

(** ** The HTTP layer and the effects of a handler *)

Inductive JsonVal : Type :=
| JStr (s : string)
| JInt (z : Z).

(** A browser [File]: the three properties the client and the drop zone read. *)
Record File : Type := mkFile {
  name : string;
  type : string;
  size : Z
}.

Inductive Effect : Type :=
| Post (url : string) (payload : gmap string JsonVal)
| PostForm (url : string) (file : File) (title description : string)
| Get (url : string)
| ToastError (msg : string)
| ToastSuccess (msg : string)
| ToastInfo (msg : string).

(** What [await api.post(...)] gives: the promise resolves with
    [response.data], or rejects with an error whose
    [error.response?.data?.detail] may be missing. *)
Inductive Reply (D : Type) : Type :=
| Resolved (data : D)
| Rejected (detail : option string).
Arguments Resolved {D} data.
Arguments Rejected {D} detail.

(** Handlers run in a log of the effects issued so far. *)
Definition Eff (A : Type) : Type := list Effect -> A * list Effect.

Definition ret {A : Type} (a : A) : Eff A := fun log => (a, log).

Definition bind {A B : Type} (m : Eff A) (k : A -> Eff B) : Eff B :=
  fun log => let (a, log') := m log in k a log'.

Definition emit (e : Effect) : Eff unit := fun log => (tt, log ++ [e]).

Declare Scope eff_scope.
Delimit Scope eff_scope with eff.
Notation "x <- m ;; k" := (bind m (fun x => k))
  (at level 100, m at next level, right associativity) : eff_scope.
Notation "m ;; k" := (bind m (fun _ => k))
  (at level 100, right associativity) : eff_scope.

(** The effects a handler issues when started with an empty log. *)
Definition effects_of {A : Type} (m : Eff A) : list Effect := snd (m []).

(** The bodies of the JSON requests in a log sent to [url]. *)
Definition posts_to (url : string) (log : list Effect) : list (gmap string JsonVal) :=
  flat_map (fun e =>
    match e with
    | Post u p => if String.eqb u url then [p] else []
    | _ => []
    end) log.

(** The files of the multipart upload requests in a log. *)
Definition uploads (log : list Effect) : list File :=
  flat_map (fun e =>
    match e with
    | PostForm _ f _ _ => [f]
    | _ => []
    end) log.

(** ** contexts/DocumentContext.js *)

Module DocumentContext.

(** The object a context function returns: [success] with, on success, the
    response data (under the property [answer], [results] or [document],
    here [value]) and, on failure, [error]. *)
Record Result (D : Type) : Type := mkResult {
  success : bool;
  value : option D;
  error : option string
}.
Arguments mkResult {D} success value error.
Arguments success {D} r.
Arguments value {D} r.
Arguments error {D} r.

Local Open Scope eff_scope.

(** [fetchDocuments].  The request resolves with [response.data], which may
    be [null] or [undefined] ([None]); the value is the response data that
    [documents] is set from ([response.data.documents || []]).  The [catch]
    branch runs when the request is rejected and when reading [.documents]
    of a missing [response.data] throws: [documents] then keeps its content
    and an error toast is shown.  The state of the provider itself
    ([documents], [loading], [uploading]) is read by none of the handlers
    below and is not threaded. *)
Definition fetchDocuments {R : Type} (reply : Reply (option R)) : Eff (option R) :=
  emit (Get "/documents") ;;
  match reply with
  | Resolved (Some data) => ret (Some data)
  | Resolved None | Rejected _ =>
      emit (ToastError "Failed to fetch documents") ;;
      ret None
  end.

(** [fetchDocuments] reached [setDocuments]: its [catch] branch did not
    run. *)
Definition fetched {R : Type} (reply : Reply (option R)) : bool :=
  match reply with
  | Resolved (Some _) => true
  | _ => false
  end.

(** [uploadDocument]; [reply] answers the upload and [refresh] the request
    of the [fetchDocuments] that follows an accepted upload. *)
Definition uploadDocument {D R : Type} (reply : Reply D) (refresh : Reply (option R))
    (file : File) (title : string) (description : string) : Eff (Result D) :=
  emit (PostForm "/documents/upload" file
          (Js.str_or title (name file)) (Js.str_or description "")) ;;
  match reply with
  | Resolved data =>
      emit (ToastSuccess "Document uploaded successfully!") ;;
      fetchDocuments refresh ;;
      ret (mkResult true (Some data) None)
  | Rejected detail =>
      let errorMessage := Js.ostr_or detail "Upload failed" in
      emit (ToastError errorMessage) ;;
      ret (mkResult false None (Some errorMessage))
  end.

(** The payload object of [askQuestion]: [{ question }], then
    [payload.document_id = documentId] when [documentId] is truthy. *)
Definition ask_payload (question : string) (documentId : option string)
    : gmap string JsonVal :=
  let payload := {[ "question" := JStr question ]} in
  match documentId with
  | Some d => if String.eqb d "" then payload
              else <[ "document_id" := JStr d ]> payload
  | None => payload
  end.

Definition askQuestion {D : Type} (reply : Reply D)
    (question : string) (documentId : option string) : Eff (Result D) :=
  let payload := ask_payload question documentId in
  emit (Post "/qa/ask" payload) ;;
  match reply with
  | Resolved data => ret (mkResult true (Some data) None)
  | Rejected detail =>
      let errorMessage := Js.ostr_or detail "Failed to get answer" in
      emit (ToastError errorMessage) ;;
      ret (mkResult false None (Some errorMessage))
  end.

(** [limit] is the second parameter, [10] when the caller leaves it out. *)
Definition searchDocuments {D : Type} (reply : Reply D)
    (query : string) (limit : option Z) : Eff (Result D) :=
  let limit := default 10%Z limit in
  emit (Post "/search" (<[ "limit" := JInt limit ]> {[ "query" := JStr query ]})) ;;
  match reply with
  | Resolved data => ret (mkResult true (Some data) None)
  | Rejected detail =>
      let errorMessage := Js.ostr_or detail "Search failed" in
      emit (ToastError errorMessage) ;;
      ret (mkResult false None (Some errorMessage))
  end.

End DocumentContext.

(** ** pages/QA.js *)

Module QA.

Import DocumentContext.
Local Open Scope eff_scope.

(** A source item of an answer as the page reads it, with the other
    properties the backend puts on the item. *)
Record Source : Type := mkSource {
  title : option string;
  chunk_text : option string;
  document_id : option string;
  similarity_score : option Q
}.

(** [response.data] of [/qa/ask]. *)
Record Answer : Type := mkAnswer {
  answer : string;
  answer_sources : option (list Source);
  answer_confidence : option Q
}.

(** An entry of [chatHistory].  [id] is [Date.now()] and [timestamp] the
    ISO rendering of the same clock, both kept as the clock reading;
    a user or error entry has no [sources] and no [confidence] property. *)
Record Message : Type := mkMessage {
  id : Z;
  mtype : string;
  content : string;
  sources : option (list Source);
  confidence : option Q;
  timestamp : Z
}.

Record State : Type := mkState {
  question : string;
  selectedDocument : string;
  chatHistory : list Message;
  loading : bool
}.

(** [selectedDocument || null] *)
Definition str_or_null (s : string) : option string :=
  if String.eqb s "" then None else Some s.

(** [handleSubmit], run at clock [t0] with the reply to the ask request
    arriving at clock [t1].  The three updates of [chatHistory], [question]
    and [loading] are applied in the order the handler issues them; the
    state returned is the one after [setLoading(false)]. *)
Definition handleSubmit (reply : Reply Answer) (t0 t1 : Z) (st : State) : Eff State :=
  if String.eqb (Js.trim (question st)) "" then
    emit (ToastError "Please enter a question") ;;
    ret st
  else
    let userMessage := mkMessage t0 "user" (question st) None None t0 in
    let history := chatHistory st ++ [userMessage] in
    result <- askQuestion reply (question st) (str_or_null (selectedDocument st)) ;;
    let errorMessage :=
      mkMessage (t1 + 1) "error" (Js.ostr_or (error result) "Failed to get answer")
        None None t1 in
    let reply_message :=
      if success result then
        match value result with
        | Some data =>
            (* aiMessage *)
            mkMessage (t1 + 1) "ai" (answer data)
              (Some (Js.arr_or_empty (answer_sources data)))
              (Js.num_or_null (answer_confidence data)) t1
        | None => errorMessage (* no successful result is without its data *)
        end
      else errorMessage in
    ret (mkState "" (selectedDocument st) (history ++ [reply_message]) false).

(** The number of entries of [chatHistory] of a given [type]. *)
Definition count_type (ty : string) (history : list Message) : nat :=
  length (List.filter (fun m => String.eqb (mtype m) ty) history).

Definition clearChat (st : State) : State :=
  mkState (question st) (selectedDocument st) [] (loading st).

Definition getConfidenceColor (confidence : Q) : string :=
  if Qle_bool (8 # 10) confidence then "text-green-600 bg-green-100"
  else if Qle_bool (6 # 10) confidence then "text-yellow-600 bg-yellow-100"
  else "text-red-600 bg-red-100".

(** [{message.confidence && (...)}]: nothing for [null], the text [0] for
    the number [0] (React renders a number child), the indicator otherwise. *)
Definition renderConfidence (message : Message) : list Node :=
  match confidence message with
  | None => []
  | Some c =>
      if Qeq_bool c 0 then [NInt 0]
      else
        [NElem "div" "flex items-center space-x-2"
           [NElem "span" "text-xs text-gray-500" [NText "Confidence:"];
            NElem "span" ("text-xs px-2 py-1 rounded-full " +:+ getConfidenceColor c)
              [NInt (Js.math_round (c * 100)); NText "%"]]]
  end.

(** A child [{s}] where [s] may be [undefined]. *)
Definition otext (s : option string) : list Node :=
  match s with
  | Some t => [NText t]
  | None => []
  end.

(** The body of [message.sources.map((source, index) => ...)]. *)
Definition renderSource (source : Source) : Node :=
  NElem "div" "text-xs bg-white bg-opacity-50 p-2 rounded border"
    (NElem "p" "font-medium" (otext (title source)) ::
     match chunk_text source with
     | Some t =>
         if String.eqb t "" then []
         else [NElem "p" "text-gray-600 mt-1 line-clamp-2"
                 [NText (String.substring 0 100 t); NText "..."]]
     | None => []
     end).

(** What a citation shows, from the two fields alone: the title, then the
    first 100 characters of the chunk text and an ellipsis when there is
    chunk text. *)
Definition citation_text (title chunk_text : option string) : list string :=
  match title with Some t => [t] | None => [] end ++
  match chunk_text with
  | Some c => if String.eqb c "" then [] else [String.substring 0 100 c; "..."]
  | None => []
  end.

(** [{message.sources && message.sources.length > 0 && (...)}] *)
Definition renderSources (message : Message) : list Node :=
  match sources message with
  | Some (s :: l) =>
      [NElem "div" "mt-2"
         [NElem "p" "text-xs text-gray-500 mb-1" [NText "Sources:"];
          NElem "div" "space-y-1" (List.map renderSource (s :: l))]]
  | _ => []
  end.

(** The block under the comment AI Response Details. *)
Definition renderDetails (message : Message) : list Node :=
  if String.eqb (mtype message) "ai" then
    [NElem "div" "mt-3 space-y-2" (renderConfidence message ++ renderSources message)]
  else [].

End QA.

(** ** The Search page *)

Module Search.

Import DocumentContext.
Local Open Scope eff_scope.

(** An item of [result.results.results]. *)
Record ResultItem : Type := mkItem {
  similarity_score : option Q;
  created_at : option string;
  document_title : option string;
  document_type : option string;
  document_id : option string;
  chunk_text : option string
}.

(** [response.data] of [/search]. *)
Record SearchResponse : Type := mkResponse {
  response_results : option (list ResultItem)
}.

Record State : Type := mkState {
  query : string;
  results : list ResultItem;
  loading : bool;
  sortBy : string;
  sortOrder : string;
  hasSearched : bool
}.

(** [useState] initial values. *)
Definition initial : State := mkState "" [] false "similarity" "desc" false.

Definition handleSearch (reply : Reply SearchResponse) (st : State) : Eff State :=
  if String.eqb (Js.trim (query st)) "" then
    emit (ToastError "Please enter a search query") ;;
    ret st
  else
    result <- searchDocuments reply (Js.trim (query st)) (Some 20%Z) ;;
    if success result then
      match value result with
      | Some data =>
          let found := Js.arr_or_empty (response_results data) in
          match response_results data with
          | Some [] => emit (ToastInfo "No results found for your search query")
          | _ => ret tt
          end ;;
          ret (mkState (query st) found false (sortBy st) (sortOrder st) true)
      | None => ret (mkState (query st) (results st) false (sortBy st) (sortOrder st) true)
      end
    else ret (mkState (query st) (results st) false (sortBy st) (sortOrder st) true).

(** The values the comparator of [sortedResults] compares: a number, a
    [Date] (its time value, [None] for an invalid date) or a string. *)
Inductive SortValue : Type :=
| VNum (q : Q)
| VDate (t : option Z)
| VStr (s : string).

(** [a < b] on two such values; every comparison with an invalid date is
    false. *)
Definition value_lt (a b : SortValue) : bool :=
  match a, b with
  | VNum x, VNum y => negb (Qle_bool y x)
  | VDate (Some x), VDate (Some y) => (x <? y)%Z
  | VStr x, VStr y => String.ltb x y
  | _, _ => false
  end.

Section Sorted.
(** [Date.parse] of the platform: the time value of a date string. *)
Variable date_parse : string -> option Z.

(** [new Date(created_at || 0)] *)
Definition date_of (created_at : option string) : option Z :=
  match created_at with
  | Some s => if String.eqb s "" then Some 0%Z else date_parse s
  | None => Some 0%Z
  end.

(** The [switch (sortBy)] of the comparator. *)
Definition sort_value (sortBy : string) (a : ResultItem) : SortValue :=
  if String.eqb sortBy "similarity" then VNum (Js.num_or (similarity_score a) 0)
  else if String.eqb sortBy "date" then VDate (date_of (created_at a))
  else if String.eqb sortBy "title" then VStr (Js.ostr_or (document_title a) "")
  else VNum (Js.num_or (similarity_score a) 0).

Definition compare (sortBy sortOrder : string) (a b : ResultItem) : Z :=
  let aValue := sort_value sortBy a in
  let bValue := sort_value sortBy b in
  if String.eqb sortOrder "asc" then
    if value_lt bValue aValue then 1%Z else (-1)%Z
  else
    if value_lt aValue bValue then 1%Z else (-1)%Z.

Definition sortedResults (st : State) : list ResultItem :=
  Js.array_sort (compare (sortBy st) (sortOrder st)) (results st).

End Sorted.

(** The similarity of an item as the page reads it: [similarity_score || 0]. *)
Definition similarity (a : ResultItem) : Q := Js.num_or (similarity_score a) 0.

Definition getSimilarityColor (score : Q) : string :=
  if Qle_bool (8 # 10) score then "text-green-600 bg-green-100"
  else if Qle_bool (6 # 10) score then "text-yellow-600 bg-yellow-100"
  else "text-red-600 bg-red-100".

End Search.

(** ** The drop zone of the Upload page

    [useDropzone] comes from the react-dropzone package.  Its documented
    contract for the two options the page sets: a dropped file is accepted
    when its MIME type is one of the keys of [accept] or its name ends in
    one of the listed extensions (both compared in lower case), and its
    size is at most [maxSize]; [onDrop] receives the accepted files. *)

Module Dropzone.

Definition lower_ascii (c : ascii) : ascii :=
  let n := nat_of_ascii c in
  if Nat.leb 65 n && Nat.leb n 90 then ascii_of_nat (n + 32) else c.

Fixpoint toLowerCase (s : string) : string :=
  match s with
  | EmptyString => EmptyString
  | String c s' => String (lower_ascii c) (toLowerCase s')
  end.

Fixpoint endsWith (s suffix : string) : bool :=
  String.eqb s suffix ||
  match s with
  | EmptyString => false
  | String _ s' => endsWith s' suffix
  end.

(** The accept attribute: every MIME type followed by its extensions. *)
Definition acceptAttr (accept : list (string * list string)) : list string :=
  flat_map (fun entry => fst entry :: snd entry) accept.

Definition accepts (file : File) (accept : list (string * list string)) : bool :=
  existsb (fun validType =>
    let validType := toLowerCase validType in
    if String.prefix "." validType
    then endsWith (toLowerCase (name file)) validType
    else String.eqb (toLowerCase (type file)) validType) (acceptAttr accept).

Definition fileMatchSize (file : File) (maxSize : Z) : bool :=
  negb (maxSize <? size file)%Z.

Definition acceptedFiles (accept : list (string * list string)) (maxSize : Z)
    (dropped : list File) : list File :=
  List.filter (fun file => accepts file accept && fileMatchSize file maxSize) dropped.

End Dropzone.

(** ** The Upload page *)

Module Upload.

Import DocumentContext.
Local Open Scope eff_scope.

Definition accept : list (string * list string) :=
  [ ("application/pdf", [".pdf"]);
    ("application/vnd.openxmlformats-officedocument.wordprocessingml.document", [".docx"]);
    ("text/plain", [".txt"]);
    ("text/markdown", [".md"]) ].

Definition maxSize : Z := 10 * 1024 * 1024.

(** A file passes the drop zone as the page configures it. *)
Definition passes (f : File) : bool :=
  Dropzone.accepts f accept && Dropzone.fileMatchSize f maxSize.

Record FileObj : Type := mkFileObj {
  file : File;
  id : string;
  status : string;
  progress : Z
}.

Record FormData : Type := mkFormData {
  title : string;
  description : string
}.

Record State : Type := mkState {
  uploadedFiles : list FileObj;
  formData : FormData
}.

Definition initial : State := mkState [] (mkFormData "" "").

(** [name.replace(/\.[^/.]+$/, "")]: the last dot and what follows it go
    when what follows is not empty and has no slash. *)
Fixpoint is_extension (s : string) : bool :=
  match s with
  | EmptyString => true
  | String c s' => negb (Ascii.eqb c "/") && negb (Ascii.eqb c ".") && is_extension s'
  end.

Fixpoint remove_extension (s : string) : string :=
  match s with
  | EmptyString => EmptyString
  | String c s' =>
      if Ascii.eqb c "." && negb (String.eqb s' "") && is_extension s'
      then EmptyString
      else String c (remove_extension s')
  end.

(** [onDrop]; [random i] is the identifier [Math.random()] yields for the
    [i]-th accepted file. *)
Definition onDrop (random : nat -> string) (acceptedFiles : list File) (st : State) : State :=
  let newFiles := imap (fun i file => mkFileObj file (random i) "pending" 0) acceptedFiles in
  let form :=
    match acceptedFiles with
    | [only] =>
        if String.eqb (title (formData st)) ""
        then mkFormData (remove_extension (name only)) (description (formData st))
        else formData st
    | _ => formData st
    end in
  mkState (uploadedFiles st ++ newFiles) form.

Definition removeFile (fileId : string) (st : State) : State :=
  mkState (List.filter (fun f => negb (String.eqb (id f) fileId)) (uploadedFiles st))
          (formData st).

(** [handleInputChange] for the two inputs of the form. *)
Definition handleInputChange (field value : string) (st : State) : State :=
  if String.eqb field "title" then
    mkState (uploadedFiles st) (mkFormData value (description (formData st)))
  else if String.eqb field "description" then
    mkState (uploadedFiles st) (mkFormData (title (formData st)) value)
  else st.

Definition set_status (fileId status : string) (progress : option Z)
    (files : list FileObj) : list FileObj :=
  List.map (fun f =>
    if String.eqb (id f) fileId
    then mkFileObj (file f) (id f) status (default (Upload.progress f) progress)
    else f) files.

(** The loop of [handleSubmit] over the files of the render it was created
    in; [files] is the state the updates accumulate in.  [reply_for] and
    [refresh_for] give the backend's answers to the upload of a file and to
    the refresh of the document list that follows it. *)
Fixpoint upload_each (reply_for : File -> Reply unit)
    (refresh_for : File -> Reply (option unit)) (form : FormData)
    (todo : list FileObj) (files : list FileObj) : Eff (list FileObj) :=
  match todo with
  | [] => ret files
  | fileObj :: rest =>
      result <- uploadDocument (reply_for (file fileObj)) (refresh_for (file fileObj))
                  (file fileObj)
                  (Js.str_or (title form) (name (file fileObj))) (description form) ;;
      let files' :=
        if success result
        then set_status (id fileObj) "completed" (Some 100%Z) files
        else set_status (id fileObj) "error" None files in
      upload_each reply_for refresh_for form rest files'
  end.

Definition handleSubmit (reply_for : File -> Reply unit)
    (refresh_for : File -> Reply (option unit)) (st : State)
    : Eff State :=
  match uploadedFiles st with
  | [] =>
      emit (ToastError "Please select at least one file to upload") ;;
      ret st
  | _ =>
      files <- upload_each reply_for refresh_for (formData st)
                 (uploadedFiles st) (uploadedFiles st) ;;
      let hasErrors := existsb (fun f => String.eqb (status f) "error") (uploadedFiles st) in
      if hasErrors then ret (mkState files (formData st))
      else ret (mkState [] (mkFormData "" ""))
  end.

(** What can happen on the page. *)
Inductive Event : Type :=
| Drop (dropped : list File) (random : nat -> string)
| Remove (fileId : string)
| InputChange (field value : string)
| Submit (reply_for : File -> Reply unit)
    (refresh_for : File -> Reply (option unit)).

Definition step (ev : Event) (st : State) : Eff State :=
  match ev with
  | Drop dropped random =>
      ret (onDrop random (Dropzone.acceptedFiles accept maxSize dropped) st)
  | Remove fileId => ret (removeFile fileId st)
  | InputChange field value => ret (handleInputChange field value st)
  | Submit reply_for refresh_for => handleSubmit reply_for refresh_for st
  end.

Fixpoint run (evs : list Event) (st : State) : Eff State :=
  match evs with
  | [] => ret st
  | ev :: evs' => st' <- step ev st ;; run evs' st'
  end.

(** Every selected file and every file sent for upload has passed the drop
    zone. *)
Definition invariant (st : State) (log : list Effect) : Prop :=
  Forall (fun f => passes f = true) (List.map file (uploadedFiles st)) /\
  Forall (fun f => passes f = true) (uploads log).

End Upload.

(** ** The retrieval core of the backend (design document, sections 3 and 4)

    The Python backend is not part of the client sources; the three
    definitions below follow the design document. *)

Module Core.

(** Modelled from the spec: a chunk of the data model (section 3), with
    its ordinal index, text span and character offset range into the
    normalized text. *)
Record Chunk : Type := mkChunk {
  index : nat;
  text : string;
  start_offset : nat;
  end_offset : nat
}.

Section Chunker.

(** Modelled from the spec: the two points section 4.2 leaves to the
    implementation of the chunker, which is backend code.  [snap text
    start stop] is the cut chosen for the window from [start] to [stop]:
    the nearest preceding white space in a small lookback window, or [stop]
    itself (a hard cut).  [stop_at_end] is the exit rule: when it is set the
    loop ends with the first window that reaches the end of the text, and
    when it is not a window is emitted as long as its start lies inside the
    text (the scenario of section 8: 2600 characters, size 1000, overlap
    200 give the four ranges starting at 0, 800, 1600 and 2400). *)
Variable snap : string -> nat -> nat -> nat.
Variable stop_at_end : bool.

(** Modelled from the spec: the chunker (section 4.2).  A window of
    [chunk_size] characters slides over the text, advancing by
    [chunk_size - overlap] characters per step whatever the cuts are; a
    window that stops short of the end of the text is cut where [snap]
    says, and the end of the text is never cut away.  [fuel] bounds the
    number of windows. *)
Fixpoint chunk_loop (normalized_text : string) (chunk_size overlap : nat)
    (fuel : nat) (start : nat) (ordinal : nat) : list Chunk :=
  match fuel with
  | O => []
  | S fuel' =>
      if Nat.ltb start (String.length normalized_text) then
        let hard := Nat.min (start + chunk_size) (String.length normalized_text) in
        let stop :=
          if Nat.ltb hard (String.length normalized_text)
          then snap normalized_text start hard
          else hard in
        mkChunk ordinal (String.substring start (stop - start) normalized_text) start stop
        :: (if stop_at_end && Nat.leb (String.length normalized_text) (start + chunk_size)
            then []
            else chunk_loop normalized_text chunk_size overlap fuel'
                   (start + (chunk_size - overlap)) (S ordinal))
      else []
  end.

(** Modelled from the spec: the contract [chunk(normalized_text,
    chunk_size, overlap)] of the chunker.  Every window but the first
    starts at least one character further, so as many windows as the text
    has characters are enough. *)
Definition chunk (normalized_text : string) (chunk_size overlap : nat) : list Chunk :=
  chunk_loop normalized_text chunk_size overlap (String.length normalized_text) 0 0.

End Chunker.

(** Modelled from the spec: the hard cut, the fallback of the white-space
    snap. *)
Definition hard_cut (normalized_text : string) (start stop : nat) : nat := stop.



(** Modelled from the spec: what contiguous coverage asks of a snap.  The
    cut of a window that stops short of the end of the text lies in the
    window and not before the start of the next one. *)
Definition contiguous_snap (snap : string -> nat -> nat -> nat)
    (chunk_size overlap : nat) : Prop :=
  forall (normalized_text : string) (start : nat),
    start + chunk_size < String.length normalized_text ->
    start + (chunk_size - overlap) <= snap normalized_text start (start + chunk_size)
    /\ snap normalized_text start (start + chunk_size) <= start + chunk_size.

(** The ceiling of [a / b] for a positive [b]. *)
Definition ceil_div (a b : Z) : Z := (- ((- a) / b))%Z.

(** Modelled from the spec: the chunk count section 8 states,
    [ceil((L-O)/(S-O))]. *)
Definition stated_count (L S O : nat) : Z :=
  ceil_div (Z.of_nat L - Z.of_nat O) (Z.of_nat S - Z.of_nat O).



(** Modelled from the spec: the distance-to-similarity transform of
    section 4.3, [1 / (1 + d)] for an index distance [d]. *)
Definition similarity (d : Q) : Q := 1 / (1 + d).

(** Modelled from the spec: an embedding record of the vector index
    (section 3), the vector and the chunk's denormalized metadata. *)
Record EmbeddingRecord : Type := mkRecord {
  chunk_id : string;
  vector : list Q;
  chunk_text : string;
  document_id : string;
  document_title : string
}.

(** Modelled from the spec: a query result item (section 3), the chunk
    text, the document metadata and the similarity score. *)
Record QueryResultItem : Type := mkItem {
  item_text : string;
  item_document_id : string;
  item_title : string;
  similarity_score : Q
}.

(** Modelled from the spec: the query-time error of section 4.3. *)
Inductive Error : Type :=
| EmbeddingProviderUnavailable.

(** Modelled from the spec: the distance of the index, the squared
    Euclidean distance of two vectors. *)
Fixpoint distance (u v : list Q) : Q :=
  match u, v with
  | x :: u', y :: v' => (x - y) * (x - y) + distance u' v'
  | _, _ => 0
  end.

(** Modelled from the spec: the capability [query(namespace, vector,
    top_k, filter?)] of the vector index, a nearest-neighbour search: the
    [top_k] records of the namespace nearest to the vector, nearest first,
    each with its distance. *)
Definition index_query (idx : gmap string (list EmbeddingRecord))
    (namespace : string) (v : list Q) (top_k : nat) (filter : option string)
    : list (EmbeddingRecord * Q) :=
  let records := default [] (idx !! namespace) in
  let records :=
    match filter with
    | Some doc => List.filter (fun r => String.eqb (document_id r) doc) records
    | None => records
    end in
  let scored := List.map (fun r => (r, distance v (vector r))) records in
  take top_k (Insertion.sort (fun a b => Qle_bool (snd a) (snd b)) scored).

(** Modelled from the spec: the retriever (section 4.3), which is backend
    code.  The query is embedded (a failing provider propagates as an
    error), the user's namespace is asked for more than [top_k]
    candidates ([top_k + extra + 1]), distances become similarities,
    items strictly below the floor are dropped and at most [top_k] are
    returned. *)
Definition retrieve (embed : string -> option (list Q))
    (idx : gmap string (list EmbeddingRecord)) (extra : nat)
    (user_id query_text : string) (top_k : nat) (similarity_floor : Q)
    (document_id_filter : option string) : Error + list QueryResultItem :=
  match embed query_text with
  | None => inl EmbeddingProviderUnavailable
  | Some v =>
      let candidates := index_query idx user_id v (top_k + extra + 1) document_id_filter in
      let items :=
        List.map (fun c =>
          mkItem (chunk_text (fst c)) (document_id (fst c)) (document_title (fst c))
                 (similarity (snd c))) candidates in
      inr (take top_k
             (List.filter (fun item => Qle_bool similarity_floor (similarity_score item)) items))
  end.

End Core.

(** ** More of the effect log *)

(** The messages of the error toasts in a log. *)
Definition error_toasts (log : list Effect) : list string :=
  flat_map (fun e =>
    match e with
    | ToastError msg => [msg]
    | _ => []
    end) log.

(** The messages of the informational toasts in a log. *)
Definition info_toasts (log : list Effect) : list string :=
  flat_map (fun e =>
    match e with
    | ToastInfo msg => [msg]
    | _ => []
    end) log.

(** The addresses of the GET requests in a log. *)
Definition gets (log : list Effect) : list string :=
  flat_map (fun e =>
    match e with
    | Get u => [u]
    | _ => []
    end) log.

(** The titles of the multipart upload requests in a log. *)
Definition upload_titles (log : list Effect) : list string :=
  flat_map (fun e =>
    match e with
    | PostForm _ _ t _ => [t]
    | _ => []
    end) log.

(** The promise of a request resolved. *)
Definition resolved {D : Type} (reply : Reply D) : bool :=
  match reply with
  | Resolved _ => true
  | Rejected _ => false
  end.

(** The detail of a rejected request. *)
Definition detail_of {D : Type} (reply : Reply D) : option string :=
  match reply with
  | Resolved _ => None
  | Rejected detail => detail
  end.

(** The number of requests of any kind in a log. *)
Definition request_count (log : list Effect) : nat :=
  length (List.filter (fun e =>
    match e with
    | Post _ _ | PostForm _ _ _ _ | Get _ => true
    | _ => false
    end) log).

(** ** The list of the Documents page *)

Module Library.

(** A document of [documents] as the page reads it. *)
Record Doc : Type := mkDoc {
  document_id : string;
  title : string;
  description : option string;
  file_type : string;
  status : string;
  created_at : string
}.

Record State : Type := mkState {
  documents : list Doc;
  sortBy : string;
  sortOrder : string;
  filter : string;
  searchTerm : string
}.

(** [useState] initial values, over the documents of the context. *)
Definition initial (docs : list Doc) : State := mkState docs "created_at" "desc" "all" "".

(** [s.includes(sub)] *)
Fixpoint includes (s sub : string) : bool :=
  String.prefix sub s ||
  match s with
  | EmptyString => false
  | String _ s' => includes s' sub
  end.

(** The callback of [documents.filter(...)]. *)
Definition shown (st : State) (doc : Doc) : bool :=
  if negb (String.eqb (filter st) "all") && negb (String.eqb (status doc) (filter st))
  then false
  else if negb (String.eqb (searchTerm st) "") then
    let searchLower := Dropzone.toLowerCase (searchTerm st) in
    includes (Dropzone.toLowerCase (title doc)) searchLower
    || match description doc with
       | Some d => includes (Dropzone.toLowerCase d) searchLower
       | None => false
       end
    || includes (Dropzone.toLowerCase (file_type doc)) searchLower
  else true.

(** What the comparator compares: [a[sortBy]], a string or [undefined], or
    the [Date] made of it when [sortBy] is [created_at]. *)
Inductive Value : Type :=
| VUndefined
| VDate (t : option Z)
| VStr (s : string).

(** [a < b]; every comparison with [undefined] or an invalid date is
    false. *)
Definition value_lt (a b : Value) : bool :=
  match a, b with
  | VDate (Some x), VDate (Some y) => (x <? y)%Z
  | VStr x, VStr y => String.ltb x y
  | _, _ => false
  end.

Section Sorted.
(** [Date.parse] of the platform. *)
Variable date_parse : string -> option Z.

(** [a[sortBy]] for the properties of a document. *)
Definition property (key : string) (a : Doc) : Value :=
  if String.eqb key "document_id" then VStr (document_id a)
  else if String.eqb key "title" then VStr (title a)
  else if String.eqb key "description" then
    match description a with Some d => VStr d | None => VUndefined end
  else if String.eqb key "file_type" then VStr (file_type a)
  else if String.eqb key "status" then VStr (status a)
  else if String.eqb key "created_at" then VStr (created_at a)
  else VUndefined.

Definition sort_value (sortBy : string) (a : Doc) : Value :=
  if String.eqb sortBy "created_at" then VDate (date_parse (created_at a))
  else property sortBy a.

Definition compare (sortBy sortOrder : string) (a b : Doc) : Z :=
  let aValue := sort_value sortBy a in
  let bValue := sort_value sortBy b in
  if String.eqb sortOrder "asc" then
    if value_lt bValue aValue then 1%Z else (-1)%Z
  else
    if value_lt aValue bValue then 1%Z else (-1)%Z.

Definition filteredAndSortedDocuments (st : State) : list Doc :=
  Js.array_sort (compare (sortBy st) (sortOrder st))
    (List.filter (shown st) (documents st)).

End Sorted.

End Library.

(** ** contexts/AuthContext.js *)

Module Auth.

Import DocumentContext.
Local Open Scope eff_scope.

(** The [user] object: [{ email, token }] after a login, [{ token }] when
    restored from a stored token. *)
Record User : Type := mkUser {
  email : option string;
  user_token : string
}.

(** The state of the provider, with the [token] entry of [localStorage]. *)
Record State : Type := mkState {
  user : option User;
  token : option string;
  loading : bool;
  stored : option string
}.

(** [useState] initial values for a given [localStorage]. *)
Definition initial (stored : option string) : State :=
  mkState None stored true stored.

(** [response.data] of [/login]. *)
Record LoginData : Type := mkLoginData {
  access_token : option string;
  token_type : option string
}.

(** A value inside a template literal; [undefined] prints as such. *)
Definition template (x : option string) : string := default "undefined" x.

(** The effect on [token]: restore the user of a truthy token. *)
Definition tokenEffect (st : State) : State :=
  match token st with
  | Some t =>
      if String.eqb t "" then mkState (user st) (token st) false (stored st)
      else mkState (Some (mkUser None t)) (token st) false (stored st)
  | None => mkState (user st) (token st) false (stored st)
  end.

Definition login (reply : Reply LoginData) (email password : string) (st : State)
    : Eff (State * Result unit) :=
  emit (Post "/login" (<[ "password" := JStr password ]> {[ "email" := JStr email ]})) ;;
  match reply with
  | Resolved data =>
      let authToken := template (token_type data) +:+ " " +:+ template (access_token data) in
      ret (mkState (Some (mkUser (Some email) authToken)) (Some authToken)
             (loading st) (Some authToken),
           mkResult true None None)
  | Rejected detail =>
      ret (st, mkResult false None (Some (Js.ostr_or detail "Login failed")))
  end.

Definition register {D : Type} (reply : Reply D) (username email password : string)
    (st : State) : Eff (State * Result unit) :=
  emit (Post "/register"
          (<[ "password" := JStr password ]>
             (<[ "email" := JStr email ]> {[ "username" := JStr username ]}))) ;;
  match reply with
  | Resolved _ => ret (st, mkResult true None None)
  | Rejected detail =>
      ret (st, mkResult false None (Some (Js.ostr_or detail "Registration failed")))
  end.

Definition logout (st : State) : State :=
  mkState None None (loading st) None.

(** [isAuthenticated: !!user] *)
Definition isAuthenticated (st : State) : bool :=
  match user st with
  | Some _ => true
  | None => false
  end.

(** What can happen to the provider. *)
Inductive Event : Type :=
| Login (reply : Reply LoginData) (email password : string)
| Register (reply : Reply unit) (username email password : string)
| Logout
| TokenEffect.

Definition step (ev : Event) (st : State) : Eff State :=
  match ev with
  | Login reply email password =>
      r <- login reply email password st ;; ret (fst r)
  | Register reply username email password =>
      r <- register reply username email password st ;; ret (fst r)
  | Logout => ret (logout st)
  | TokenEffect => ret (tokenEffect st)
  end.

Fixpoint run (evs : list Event) (st : State) : Eff State :=
  match evs with
  | [] => ret st
  | ev :: evs' => st' <- step ev st ;; run evs' st'
  end.

End Auth.

(** ** Concrete inputs *)

Module Examples.

(** An index with one namespace of three chunks, and a provider that
    embeds every query as the vector (1, 0). *)
Definition idx : gmap string (list Core.EmbeddingRecord) :=
  {[ "alice" := [ Core.mkRecord "c0" [3%Q; 0%Q] "far" "d1" "Notes";
                  Core.mkRecord "c1" [1%Q; 1%Q] "near" "d1" "Notes";
                  Core.mkRecord "c2" [1%Q; 0%Q] "exact" "d2" "Report" ] ]}.

Definition embed (query_text : string) : option (list Q) := Some [1%Q; 0%Q].

Definition item_exact : Core.QueryResultItem := Core.mkItem "exact" "d2" "Report" 1%Q.
Definition item_near : Core.QueryResultItem := Core.mkItem "near" "d1" "Notes" (1 # 2)%Q.

(** Search results as the backend may send them: one without a score. *)
Definition hit (score : option Q) : Search.ResultItem :=
  Search.mkItem score None (Some "Notes") (Some "txt") (Some "d1") (Some "text").

Definition search_state : Search.State :=
  Search.mkState "notes" [hit (Some (1 # 2)%Q); hit None; hit (Some (9 # 10)%Q)]
    false "similarity" "desc" true.

(** Twenty characters, and one hundred and one. *)
Definition twenty : string := "aaaaaaaaaaaaaaaaaaaa".



Definition scenario : string := string_of_list_ascii (repeat "a"%char 2600).

(** The character ranges of a list of chunks. *)
Definition ranges (chunks : list Core.Chunk) : list (nat * nat) :=
  map (fun c => (Core.start_offset c, Core.end_offset c)) chunks.

Definition long_text : string :=
  twenty +:+ twenty +:+ twenty +:+ twenty +:+ twenty +:+ "b".

(** The QA page with a question typed in and no document selected, and
    two replies of the backend. *)
Definition qa_state : QA.State := QA.mkState "What is it?" "" [] false.

Definition cited : QA.Source :=
  QA.mkSource (Some "Notes") (Some long_text) (Some "d1") (Some (9 # 10)%Q).

Definition answer_cited : QA.Answer := QA.mkAnswer "It is." (Some [cited]) (Some (9 # 10)%Q).

Definition answer_none : QA.Answer :=
  QA.mkAnswer "No relevant documents found." (Some []) (Some 0%Q).

(** Files offered to the drop zone: one too large, one of a foreign type,
    one fine. *)
Definition too_large : File := mkFile "big.pdf" "application/pdf" (10 * 1024 * 1024 + 1).
Definition foreign : File := mkFile "setup.exe" "application/x-msdownload" 2048.
Definition fine : File := mkFile "notes.txt" "text/plain" 2048.

(** The three files are dropped, then the form is submitted and the
    backend accepts what it gets. *)
Definition session : list Upload.Event :=
  [ Upload.Drop [too_large; foreign; fine] (fun i => "k3x9q2m1z");
    Upload.Submit (fun _ => Resolved tt) (fun _ => Resolved (Some tt)) ].

(** Search results with titles and dates, and a parser that knows two
    date strings. *)
Definition dated (title : option string) (created_at : option string) : Search.ResultItem :=
  Search.mkItem (Some (1 # 2)%Q) created_at title (Some "txt") (Some "d1") (Some "text").

Definition parse (s : string) : option Z :=
  if String.eqb s "2024-01-01" then Some 1704067200000%Z
  else if String.eqb s "2024-06-01" then Some 1717200000000%Z
  else None.

Definition dated_results : list Search.ResultItem :=
  [ dated (Some "Notes") (Some "2024-01-01");
    dated None (Some "2024-06-01");
    dated (Some "Report") None ].

Definition by_title : Search.State :=
  Search.mkState "notes" dated_results false "title" "asc" true.

Definition by_date : Search.State :=
  Search.mkState "notes" dated_results false "date" "desc" true.

Definition blank_search : Search.State :=
  Search.mkState "   " dated_results false "similarity" "desc" true.

Definition blank_qa : QA.State := QA.mkState "  " "d1" [] false.

(** The Upload page with two files selected and a title typed in; the
    backend takes the first and refuses the second. *)
Definition report : File := mkFile "report.final.pdf" "application/pdf" 4096.

Definition two_selected : Upload.State :=
  Upload.mkState
    [ Upload.mkFileObj fine "a1" "pending" 0; Upload.mkFileObj report "b2" "pending" 0 ]
    (Upload.mkFormData "Quarterly" "").

(** The Documents page with three documents, filtered to the processed
    ones that mention a report. *)
Definition library : Library.State :=
  Library.mkState
    [ Library.mkDoc "d1" "Annual Report" None "pdf" "processed" "2024-01-01";
      Library.mkDoc "d2" "Notes" (Some "for the REPORT") "txt" "processing" "2024-06-01";
      Library.mkDoc "d3" "Minutes" (Some "board report") "docx" "processed" "2024-06-01" ]
    "title" "asc" "processed" "Report".

Definition first_only (f : File) : Reply unit :=
  if String.eqb (name f) "notes.txt" then Resolved tt else Rejected (Some "Too many chunks").

(** The refresh of the document list fails. *)
Definition no_refresh (f : File) : Reply (option unit) := Rejected None.

End Examples.

(** * Properties *)

(** ** Insertion sort *)

Section InsertionFacts.
Context {A : Type} (before : A -> A -> bool) (R : A -> A -> Prop).
Hypothesis R_trans : forall x y z, R x y -> R y z -> R x z.
Hypothesis before_true : forall x y, before x y = true -> R x y.
Hypothesis before_false : forall x y, before x y = false -> R y x.

Lemma insert_Forall (P : A -> Prop) x l :
  P x -> Forall P l -> Forall P (Insertion.insert before x l).
Proof.
  intros Hx Hl. induction Hl as [|y l Hy Hl IH]; simpl.
  - constructor; [exact Hx | constructor].
  - destruct (before x y); repeat constructor; assumption.
Qed.

Lemma insert_sorted x l :
  StronglySorted R l -> StronglySorted R (Insertion.insert before x l).
Proof.
  induction 1 as [|y l Hs IH Hy]; simpl.
  - repeat constructor.
  - destruct (before x y) eqn:E.
    + constructor; [constructor; assumption|].
      constructor; [apply before_true; exact E|].
      eapply Forall_impl; [exact Hy|].
      intros z Hz. eapply R_trans; [apply before_true; exact E | exact Hz].
    + constructor; [exact IH|].
      apply insert_Forall; [apply before_false; exact E | exact Hy].
Qed.

Lemma sort_from_sorted l acc :
  StronglySorted R acc ->
  StronglySorted R (fold_left (fun acc x => Insertion.insert before x acc) l acc).
Proof.
  revert acc. induction l as [|x l IH]; intros acc Hacc; simpl.
  - exact Hacc.
  - apply IH, insert_sorted, Hacc.
Qed.

Lemma sort_sorted l : StronglySorted R (Insertion.sort before l).
Proof. apply sort_from_sorted. constructor. Qed.

End InsertionFacts.

Lemma insert_perm {A : Type} (before : A -> A -> bool) x l :
  Permutation (Insertion.insert before x l) (x :: l).
Proof.
  induction l as [|y l IH]; simpl.
  - reflexivity.
  - destruct (before x y).
    + reflexivity.
    + rewrite IH. apply perm_swap.
Qed.

Lemma sort_perm {A : Type} (before : A -> A -> bool) l :
  Permutation (Insertion.sort before l) l.
Proof.
  unfold Insertion.sort.
  assert (H : forall acc,
    Permutation (fold_left (fun acc x => Insertion.insert before x acc) l acc) (acc ++ l)).
  { induction l as [|x l IH]; intros acc; simpl.
    - rewrite app_nil_r. reflexivity.
    - rewrite IH, insert_perm. apply (Permutation_middle acc l x). }
  apply (H []).
Qed.

(** In a strongly sorted list, an earlier element is related to every
    later one. *)
Lemma sorted_lookup {A : Type} (R : A -> A -> Prop) (l : list A) :
  StronglySorted R l ->
  forall i j a b, (i < j)%nat -> l !! i = Some a -> l !! j = Some b -> R a b.
Proof.
  induction 1 as [|x l Hs IH Hx]; intros i j a b Hij Ha Hb.
  - discriminate.
  - destruct j as [|j]; [lia|]. simpl in Hb.
    destruct i as [|i]; simpl in Ha.
    + injection Ha as <-. rewrite Forall_forall in Hx. apply Hx.
      apply list_elem_of_lookup. eauto.
    + apply (IH i j); [lia | assumption | assumption].
Qed.

Lemma sorted_filter {A : Type} (R : A -> A -> Prop) (f : A -> bool) (l : list A) :
  StronglySorted R l -> StronglySorted R (List.filter f l).
Proof.
  induction 1 as [|x l Hs IH Hx]; simpl.
  - constructor.
  - destruct (f x); [|exact IH].
    constructor; [exact IH|].
    rewrite List.Forall_forall in *. intros y Hy. apply Hx.
    apply filter_In in Hy. tauto.
Qed.

Lemma sorted_take {A : Type} (R : A -> A -> Prop) (n : nat) (l : list A) :
  StronglySorted R l -> StronglySorted R (take n l).
Proof.
  intros Hs. revert n. induction Hs as [|x l Hs IH Hx]; intros [|n]; simpl;
    try constructor.
  - apply IH.
  - apply Forall_take, Hx.
Qed.

Lemma sorted_map {A B : Type} (R : A -> A -> Prop) (R' : B -> B -> Prop)
    (f : A -> B) (l : list A) :
  (forall x y, In x l -> In y l -> R x y -> R' (f x) (f y)) ->
  StronglySorted R l -> StronglySorted R' (List.map f l).
Proof.
  intros Hf Hs. induction Hs as [|x l Hs IH Hx]; simpl.
  - constructor.
  - constructor.
    + apply IH. intros a b Ha Hb. apply Hf; right; assumption.
    + rewrite List.Forall_forall in *. intros y Hy.
      apply in_map_iff in Hy as [z [<- Hz]].
      apply Hf; [left; reflexivity | right; exact Hz | apply Hx, Hz].
Qed.

(** ** The distance-to-similarity transform *)

Local Open Scope Q_scope.

Lemma similarity_pos (d : Q) : 0 <= d -> 0 < Core.similarity d.
Proof.
  intros Hd. unfold Core.similarity.
  apply Qlt_shift_div_l; [lra|]. rewrite Qmult_0_l. reflexivity.
Qed.

Lemma similarity_le_1 (d : Q) : 0 <= d -> Core.similarity d <= 1.
Proof.
  intros Hd. unfold Core.similarity.
  apply Qle_shift_div_r; lra.
Qed.

Lemma similarity_decreasing (d1 d2 : Q) :
  0 <= d1 -> d1 < d2 -> Core.similarity d2 < Core.similarity d1.
Proof.
  intros H1 H12. unfold Core.similarity, Qdiv. rewrite !Qmult_1_l.
  apply -> (Qinv_lt_contravar (1 + d1) (1 + d2)); lra.
Qed.

Lemma similarity_antitone (d1 d2 : Q) :
  0 <= d1 -> d1 <= d2 -> Core.similarity d2 <= Core.similarity d1.
Proof.
  intros H1 H12. apply Qle_lt_or_eq in H12 as [Hlt | Heq].
  - apply Qlt_le_weak, similarity_decreasing; assumption.
  - unfold Core.similarity. rewrite Heq. apply Qle_refl.
Qed.

(** C8.  The transform is [1 / (1 + d)]; on distances [d >= 0] it takes
    values in (0, 1], and it is strictly decreasing: of two distances, the
    smaller one has the strictly larger similarity. *)
Theorem similarity_transform :
  (forall d : Q, Core.similarity d == 1 / (1 + d)) /\
  (forall d : Q, 0 <= d -> 0 < Core.similarity d /\ Core.similarity d <= 1) /\
  (forall d1 d2 : Q, 0 <= d1 -> d1 < d2 -> Core.similarity d2 < Core.similarity d1).
Proof.
  split; [|split].
  - intros d. reflexivity.
  - intros d Hd. split; [apply similarity_pos | apply similarity_le_1]; exact Hd.
  - apply similarity_decreasing.
Qed.

Lemma similarity_transform_witness :
  (0 < Core.similarity 3 /\ Core.similarity 3 <= 1) /\
  Core.similarity 3 < Core.similarity (1 # 2).
Proof.
  split.
  - apply (proj1 (proj2 similarity_transform) 3). discriminate.
  - apply (proj2 (proj2 similarity_transform) (1 # 2) 3); [discriminate | reflexivity].
Defined.

(** ** Order of the results *)

Lemma distance_nonneg (u v : list Q) : 0 <= Core.distance u v.
Proof.
  revert v. induction u as [|x u IH]; intros [|y v]; simpl; try apply Qle_refl.
  specialize (IH v).
  assert (H : 0 <= (x - y) * (x - y)).
  { destruct (Qlt_le_dec (x - y) 0) as [Hneg | Hpos].
    - assert (E : (x - y) * (x - y) == (- (x - y)) * (- (x - y))) by ring.
      rewrite E. apply Qmult_le_0_compat; lra.
    - apply Qmult_le_0_compat; assumption. }
  lra.
Qed.

(** The index answers nearest first, with distances that are not negative. *)
Lemma index_query_sorted idx namespace v n filter :
  StronglySorted (fun a b : Core.EmbeddingRecord * Q => snd a <= snd b)
    (Core.index_query idx namespace v n filter).
Proof.
  unfold Core.index_query. apply sorted_take.
  apply sort_sorted.
  - intros x y z. apply Qle_trans.
  - intros x y. apply Qle_bool_imp_le.
  - intros x y H. apply Qlt_le_weak, Qnot_le_lt.
    intros Hle. apply Qle_bool_iff in Hle. congruence.
Qed.

Lemma index_query_nonneg idx namespace v n filter c :
  In c (Core.index_query idx namespace v n filter) -> 0 <= snd c.
Proof.
  unfold Core.index_query. intros Hc.
  apply list_elem_of_In, elem_of_take in Hc as [i [Hc _]].
  apply list_elem_of_lookup_2, list_elem_of_In in Hc.
  eapply Permutation_in in Hc; [|apply sort_perm].
  apply in_map_iff in Hc as [r [<- _]]. simpl. apply distance_nonneg.
Qed.

Lemma retrieve_sorted embed idx extra user_id query_text top_k floor filter items :
  Core.retrieve embed idx extra user_id query_text top_k floor filter = inr items ->
  StronglySorted (fun a b => Core.similarity_score b <= Core.similarity_score a) items.
Proof.
  unfold Core.retrieve. destruct (embed query_text) as [v|]; [|discriminate].
  intros [= <-]. apply sorted_take, sorted_filter.
  eapply sorted_map; [|apply index_query_sorted].
  intros x y Hx _ Hxy. simpl.
  apply similarity_antitone; [eapply index_query_nonneg; exact Hx | exact Hxy].
Qed.

(** Under the default sort state the comparator asks for [x] before [y]
    exactly when the similarity of [y] is at most that of [x]. *)
Lemma compare_default date_parse (x y : Search.ResultItem) :
  (Search.compare date_parse "similarity" "desc" x y <? 0)%Z
  = Qle_bool (Search.similarity y) (Search.similarity x).
Proof.
  unfold Search.compare, Search.sort_value, Search.similarity. simpl.
  destruct (Qle_bool _ _); reflexivity.
Qed.

Lemma sortedResults_sorted date_parse (st : Search.State) :
  Search.sortBy st = "similarity" -> Search.sortOrder st = "desc" ->
  StronglySorted (fun a b => Search.similarity b <= Search.similarity a)
    (Search.sortedResults date_parse st).
Proof.
  intros Hby Hord. unfold Search.sortedResults, Js.array_sort. rewrite Hby, Hord.
  apply sort_sorted.
  - intros x y z Hxy Hyz. eapply Qle_trans; eassumption.
  - intros x y. rewrite compare_default. apply Qle_bool_imp_le.
  - intros x y. rewrite compare_default. intros H.
    apply Qlt_le_weak, Qnot_le_lt.
    intros Hle. apply Qle_bool_iff in Hle. congruence.
Qed.

(** The same order comes out of any sort whose neighbours are justified
    by the comparator: [x] directly before [y] because the comparator asks
    for it, or at least does not ask for the opposite. *)
Lemma default_order_of_any_engine date_parse (out : list Search.ResultItem) :
  (forall (i : nat) x y, out !! i = Some x -> out !! S i = Some y ->
     (Search.compare date_parse "similarity" "desc" x y < 0)%Z \/
     ~ (Search.compare date_parse "similarity" "desc" y x < 0)%Z) ->
  StronglySorted (fun a b => Search.similarity b <= Search.similarity a) out.
Proof.
  intros Hadj. apply Sorted_StronglySorted.
  - intros x y z Hxy Hyz. eapply Qle_trans; eassumption.
  - induction out as [|x l IH]; constructor.
    + apply IH. intros i a b Ha Hb. apply (Hadj (S i)); assumption.
    + destruct l as [|y l']; constructor.
      pose proof (compare_default date_parse x y) as Hxy.
      pose proof (compare_default date_parse y x) as Hyx.
      destruct (Hadj 0%nat x y eq_refl eq_refl) as [Hlt | Hnlt].
      * apply Z.ltb_lt in Hlt. rewrite Hlt in Hxy.
        apply Qle_bool_imp_le. symmetry. exact Hxy.
      * apply Z.ltb_nlt in Hnlt. rewrite Hnlt in Hyx.
        apply Qlt_le_weak, Qnot_le_lt. intros Hle.
        apply Qle_bool_iff in Hle. congruence.
Qed.

(** The page shows every result it holds, each once. *)
Lemma sortedResults_perm date_parse (st : Search.State) :
  Permutation (Search.sortedResults date_parse st) (Search.results st).
Proof. apply sort_perm. Qed.

(** C1.  Results come in non-increasing similarity: in a list returned by
    [retrieve], and in the list the Search page shows under its default
    sort state ([sortBy = 'similarity'], [sortOrder = 'desc'], a missing
    [similarity_score] read as 0), an item placed before another has a
    similarity at least as large. *)
Theorem results_ordered_by_similarity :
  (forall embed idx extra user_id query_text top_k floor filter items,
     Core.retrieve embed idx extra user_id query_text top_k floor filter = inr items ->
     forall (i j : nat) (a b : Core.QueryResultItem),
       (i < j)%nat -> items !! i = Some a -> items !! j = Some b ->
       Core.similarity_score b <= Core.similarity_score a) /\
  (forall date_parse (st : Search.State),
     Search.sortBy st = "similarity" -> Search.sortOrder st = "desc" ->
     forall (i j : nat) (a b : Search.ResultItem),
       (i < j)%nat ->
       Search.sortedResults date_parse st !! i = Some a ->
       Search.sortedResults date_parse st !! j = Some b ->
       Search.similarity b <= Search.similarity a).
Proof.
  split.
  - intros embed idx extra user_id query_text top_k floor filter items Hret i j a b.
    apply (sorted_lookup
             (fun a b => Core.similarity_score b <= Core.similarity_score a) items).
    eapply retrieve_sorted; exact Hret.
  - intros date_parse st Hby Hord i j a b.
    apply (sorted_lookup (fun a b => Search.similarity b <= Search.similarity a)
             (Search.sortedResults date_parse st)).
    apply sortedResults_sorted; assumption.
Qed.

Lemma results_ordered_by_similarity_witness :
  Core.similarity_score Examples.item_near <= Core.similarity_score Examples.item_exact /\
  Search.similarity (Examples.hit None) <= Search.similarity (Examples.hit (Some (9 # 10))).
Proof.
  split.
  - apply (proj1 results_ordered_by_similarity Examples.embed Examples.idx 1%nat
             "alice" "question" 2%nat (1 # 4) None
             [Examples.item_exact; Examples.item_near]
             ltac:(vm_compute; reflexivity) 0%nat 1%nat);
      [lia | reflexivity | reflexivity].
  - apply (proj2 results_ordered_by_similarity (fun _ => None) Examples.search_state
             ltac:(reflexivity) ltac:(reflexivity) 0%nat 2%nat);
      [lia | vm_compute; reflexivity | vm_compute; reflexivity].
Defined.

Local Close Scope Q_scope.

(** ** The chunker *)




Section ChunkLoop.
Variable snap : string -> nat -> nat -> nat.
Variable stop_at_end : bool.
Variables (t : string) (S_ O : nat).
Hypothesis overlap_lt : O < S_.
Hypothesis snap_ok : Core.contiguous_snap snap S_ O.

Local Abbreviation L := (String.length t).
Local Abbreviation step := (S_ - O).
Local Abbreviation loop := (Core.chunk_loop snap stop_at_end t S_ O).









End ChunkLoop.






(** The hard cut is contiguous, and so is the white-space snap when its
    lookback window is no longer than the overlap. *)
Lemma hard_cut_contiguous (S_ O : nat) : Core.contiguous_snap Core.hard_cut S_ O.
Proof. intros text start H. unfold Core.hard_cut. lia. Qed.




(** The scenario of section 8 fixes the exit rule: with hard cuts, 2600
    characters, size 1000 and overlap 200 give the four stated ranges only
    when every start inside the text gives a chunk; a loop that ends at the
    first window reaching the end gives three and never the range
    [[2400, 2600)]. *)
Lemma chunk_scenario :
  String.length Examples.scenario = 2600 /\
  Examples.ranges (Core.chunk Core.hard_cut false Examples.scenario 1000 200)
  = [(0, 1000); (800, 1800); (1600, 2600); (2400, 2600)] /\
  Examples.ranges (Core.chunk Core.hard_cut true Examples.scenario 1000 200)
  = [(0, 1000); (800, 1800); (1600, 2600)] /\
  Core.stated_count (String.length Examples.scenario) 1000 200 = 3%Z.
Proof. vm_compute. repeat split; reflexivity. Qed.


(** ** Status presentation on the Documents page *)

(** C10.  [getStatusIcon] and [getStatusColor] return a value for every
    status string, and every status other than [processed], [processing]
    and [error], [pending] and unknown values alike, gets the one default
    presentation: the yellow clock. *)
Theorem status_presentation_total (status : string) :
  (exists icon, Documents.getStatusIcon status = icon) /\
  (exists color, Documents.getStatusColor status = color) /\
  (status <> "processed" -> status <> "processing" -> status <> "error" ->
   Documents.getStatusIcon status = NElem "Clock" "h-4 w-4 text-yellow-600" [] /\
   Documents.getStatusColor status = "bg-yellow-100 text-yellow-800" /\
   Documents.getStatusIcon status = Documents.getStatusIcon "pending" /\
   Documents.getStatusColor status = Documents.getStatusColor "pending").
Proof.
  split; [eexists; reflexivity|]. split; [eexists; reflexivity|].
  intros H1 H2 H3.
  apply String.eqb_neq in H1, H2, H3.
  unfold Documents.getStatusIcon, Documents.getStatusColor.
  rewrite H1, H2, H3. simpl. repeat split; reflexivity.
Qed.

Lemma status_presentation_total_witness :
  Documents.getStatusIcon "archived" = Documents.getStatusIcon "pending" /\
  Documents.getStatusColor "archived" = Documents.getStatusColor "pending".
Proof.
  destruct (status_presentation_total "archived") as (_ & _ & H).
  destruct H as (_ & _ & Hicon & Hcolor); [discriminate | discriminate | discriminate |].
  split; [exact Hicon | exact Hcolor].
Defined.

(** ** Request payloads *)

Lemma posts_to_app url (l1 l2 : list Effect) :
  posts_to url (l1 ++ l2) = posts_to url l1 ++ posts_to url l2.
Proof. unfold posts_to. apply flat_map_app. Qed.

(** The one JSON request [askQuestion] issues. *)
Lemma askQuestion_posts {D : Type} (reply : Reply D) question documentId log :
  posts_to "/qa/ask" (snd (DocumentContext.askQuestion reply question documentId log))
  = posts_to "/qa/ask" log ++ [DocumentContext.ask_payload question documentId].
Proof.
  unfold DocumentContext.askQuestion, bind, emit, ret.
  destruct reply; simpl; rewrite ?posts_to_app; simpl; rewrite ?app_nil_r; reflexivity.
Qed.

(** The keys of the payload of [askQuestion]. *)
Lemma ask_payload_keys question documentId (k : string) :
  is_Some (DocumentContext.ask_payload question documentId !! k) ->
  k = "question" \/ k = "document_id".
Proof.
  unfold DocumentContext.ask_payload. intros [v Hv].
  destruct documentId as [d|]; [destruct (String.eqb d "")|].
  - apply lookup_singleton_Some in Hv as [<- _]. left; reflexivity.
  - apply lookup_insert_Some in Hv as [[<- _] | [_ Hv]]; [right; reflexivity|].
    apply lookup_singleton_Some in Hv as [<- _]. left; reflexivity.
  - apply lookup_singleton_Some in Hv as [<- _]. left; reflexivity.
Qed.

(** C3, as amended.  A submitted question makes the page issue exactly one
    request to [/qa/ask]; its payload carries the question text and a
    [document_id] exactly when a document is selected, and nothing else:
    no [max_chunks] and no [similarity_threshold]. *)
Theorem ask_request_payload (reply : Reply QA.Answer) (t0 t1 : Z) (st : QA.State) :
  Js.trim (QA.question st) <> "" ->
  exists payload : gmap string JsonVal,
    posts_to "/qa/ask" (effects_of (QA.handleSubmit reply t0 t1 st)) = [payload] /\
    payload !! "question" = Some (JStr (QA.question st)) /\
    (QA.selectedDocument st <> "" ->
       payload !! "document_id" = Some (JStr (QA.selectedDocument st))) /\
    (QA.selectedDocument st = "" -> payload !! "document_id" = None) /\
    payload !! "max_chunks" = None /\
    payload !! "similarity_threshold" = None /\
    (forall k : string, is_Some (payload !! k) -> k = "question" \/ k = "document_id").
Proof.
  intros Hq. apply String.eqb_neq in Hq.
  exists (DocumentContext.ask_payload (QA.question st) (QA.str_or_null (QA.selectedDocument st))).
  split; [|split; [|split; [|split; [|split; [|split]]]]].
  - unfold effects_of, QA.handleSubmit. rewrite Hq. unfold bind at 1.
    pose proof (askQuestion_posts reply (QA.question st)
                  (QA.str_or_null (QA.selectedDocument st)) []) as Hposts.
    destruct (DocumentContext.askQuestion reply _ _ []) as [result log]. simpl in *.
    exact Hposts.
  - unfold DocumentContext.ask_payload, QA.str_or_null.
    destruct (String.eqb (QA.selectedDocument st) "") eqn:E.
    + apply lookup_singleton_eq.
    + rewrite E. rewrite lookup_insert_ne by discriminate. apply lookup_singleton_eq.
  - intros Hsel. apply String.eqb_neq in Hsel.
    unfold DocumentContext.ask_payload, QA.str_or_null. rewrite Hsel, Hsel.
    apply lookup_insert_eq.
  - intros Hsel. unfold DocumentContext.ask_payload, QA.str_or_null. rewrite Hsel. simpl.
    apply lookup_singleton_ne. discriminate.
  - destruct (_ !! "max_chunks") eqn:E; [|reflexivity].
    destruct (ask_payload_keys _ _ "max_chunks" (mk_is_Some _ _ E)); discriminate.
  - destruct (_ !! "similarity_threshold") eqn:E; [|reflexivity].
    destruct (ask_payload_keys _ _ "similarity_threshold" (mk_is_Some _ _ E)); discriminate.
  - apply ask_payload_keys.
Qed.

Lemma ask_request_payload_witness :
  exists payload : gmap string JsonVal,
    posts_to "/qa/ask"
      (effects_of (QA.handleSubmit (Resolved Examples.answer_cited) 0 1 Examples.qa_state))
    = [payload] /\
    payload !! "question" = Some (JStr "What is it?") /\
    payload !! "document_id" = None.
Proof.
  destruct (ask_request_payload (Resolved Examples.answer_cited) 0 1 Examples.qa_state)
    as (payload & Hposts & Hq & _ & Hnone & _); [discriminate|].
  exists payload. split; [exact Hposts|]. split; [exact Hq|].
  apply Hnone. reflexivity.
Defined.

(** C3 as stated fails: the request of a submitted question has neither a
    [max_chunks] nor a [similarity_threshold] field. *)
Lemma ask_request_payload_counterexample :
  exists payload : gmap string JsonVal,
    posts_to "/qa/ask"
      (effects_of (QA.handleSubmit (Resolved Examples.answer_cited) 0 1 Examples.qa_state))
    = [payload] /\
    ~ is_Some (payload !! "max_chunks") /\
    ~ is_Some (payload !! "similarity_threshold").
Proof.
  exists {[ "question" := JStr "What is it?" ]}.
  split; [reflexivity|].
  split; intros [v Hv]; vm_compute in Hv; discriminate.
Qed.

Lemma searchDocuments_posts {D : Type} (reply : Reply D) query limit log :
  posts_to "/search" (snd (DocumentContext.searchDocuments reply query limit log))
  = posts_to "/search" log
    ++ [<[ "limit" := JInt (default 10%Z limit) ]> {[ "query" := JStr query ]}].
Proof.
  unfold DocumentContext.searchDocuments, bind, emit, ret.
  destruct reply; simpl; rewrite ?posts_to_app; simpl; rewrite ?app_nil_r; reflexivity.
Qed.

(** Whatever [handleSearch] does after the reply issues no further request. *)
Lemma handleSearch_posts (reply : Reply Search.SearchResponse) (st : Search.State) :
  Js.trim (Search.query st) <> "" ->
  posts_to "/search" (effects_of (Search.handleSearch reply st))
  = [<[ "limit" := JInt 20 ]> {[ "query" := JStr (Js.trim (Search.query st)) ]}].
Proof.
  intros Hq. apply String.eqb_neq in Hq.
  unfold effects_of, Search.handleSearch. rewrite Hq. unfold bind at 1.
  pose proof (searchDocuments_posts reply (Js.trim (Search.query st)) (Some 20%Z) [])
    as Hposts.
  destruct (DocumentContext.searchDocuments reply _ _ []) as [result log].
  simpl in Hposts.
  destruct (DocumentContext.success result); [|exact Hposts].
  destruct (DocumentContext.value result) as [data|]; [|exact Hposts].
  unfold bind, ret, emit.
  destruct (Search.response_results data) as [[|item items]|]; simpl;
    rewrite ?posts_to_app; simpl; rewrite ?app_nil_r; exact Hposts.
Qed.

(** C4, as amended.  A query submitted from the Search page makes it issue
    exactly one request to [/search]; its payload carries the trimmed query
    string and the maximum result count 20 in the field [limit], and
    nothing else: no [similarity_threshold]. *)
Theorem search_request_payload (reply : Reply Search.SearchResponse) (st : Search.State) :
  Js.trim (Search.query st) <> "" ->
  exists payload : gmap string JsonVal,
    posts_to "/search" (effects_of (Search.handleSearch reply st)) = [payload] /\
    payload !! "query" = Some (JStr (Js.trim (Search.query st))) /\
    payload !! "limit" = Some (JInt 20) /\
    payload !! "similarity_threshold" = None /\
    (forall k : string, is_Some (payload !! k) -> k = "query" \/ k = "limit").
Proof.
  intros Hq. eexists. split; [apply handleSearch_posts; exact Hq|].
  split; [|split; [|split]].
  - rewrite lookup_insert_ne by discriminate. apply lookup_singleton_eq.
  - apply lookup_insert_eq.
  - rewrite lookup_insert_ne by discriminate. apply lookup_singleton_ne. discriminate.
  - intros k [v Hv].
    apply lookup_insert_Some in Hv as [[<- _] | [_ Hv]]; [right; reflexivity|].
    apply lookup_singleton_Some in Hv as [<- _]. left; reflexivity.
Qed.

Lemma search_request_payload_witness :
  exists payload : gmap string JsonVal,
    posts_to "/search"
      (effects_of (Search.handleSearch (Rejected None) Examples.search_state))
    = [payload] /\
    payload !! "query" = Some (JStr "notes") /\
    payload !! "limit" = Some (JInt 20).
Proof.
  destruct (search_request_payload (Rejected None) Examples.search_state)
    as (payload & Hposts & Hq & Hlimit & _); [discriminate|].
  exists payload. split; [exact Hposts|]. split; [exact Hq | exact Hlimit].
Defined.

(** C4 as stated fails: the request of a submitted query has no
    [similarity_threshold] field. *)
Lemma search_request_payload_counterexample :
  exists payload : gmap string JsonVal,
    posts_to "/search"
      (effects_of (Search.handleSearch (Rejected None) Examples.search_state))
    = [payload] /\
    ~ is_Some (payload !! "similarity_threshold").
Proof.
  exists (<[ "limit" := JInt 20 ]> {[ "query" := JStr "notes" ]}).
  split; [reflexivity|].
  intros [v Hv]; vm_compute in Hv; discriminate.
Qed.

(** ** The chat history of the QA page *)

Lemma str_or_nonempty (s d : string) : d <> "" -> Js.str_or s d <> "".
Proof.
  intros Hd. unfold Js.str_or. destruct (String.eqb_spec s ""); assumption.
Qed.

Lemma ostr_or_nonempty (x : option string) (d : string) : d <> "" -> Js.ostr_or x d <> "".
Proof.
  intros Hd. destruct x as [s|]; simpl; [apply str_or_nonempty|]; exact Hd.
Qed.

Lemma str_or_truthy (s d : string) : s <> "" -> Js.str_or s d = s.
Proof.
  intros Hs. unfold Js.str_or. apply String.eqb_neq in Hs. rewrite Hs. reflexivity.
Qed.

Lemma count_type_app ty (h1 h2 : list QA.Message) :
  QA.count_type ty (h1 ++ h2) = QA.count_type ty h1 + QA.count_type ty h2.
Proof. unfold QA.count_type. rewrite List.filter_app, length_app. reflexivity. Qed.

(** The state [handleSubmit] leaves when the request is rejected. *)
Lemma handleSubmit_rejected detail t0 t1 (st : QA.State) log :
  Js.trim (QA.question st) <> "" ->
  fst (QA.handleSubmit (Rejected detail) t0 t1 st log)
  = QA.mkState "" (QA.selectedDocument st)
      ((QA.chatHistory st ++ [QA.mkMessage t0 "user" (QA.question st) None None t0])
       ++ [QA.mkMessage (t1 + 1) "error" (Js.ostr_or detail "Failed to get answer")
             None None t1])
      false.
Proof.
  intros Hq. apply String.eqb_neq in Hq.
  unfold QA.handleSubmit. rewrite Hq.
  unfold DocumentContext.askQuestion, bind, emit, ret. simpl.
  rewrite str_or_truthy by (apply ostr_or_nonempty; discriminate).
  reflexivity.
Qed.

(** The state [handleSubmit] leaves when the request resolves. *)
Lemma handleSubmit_resolved (data : QA.Answer) t0 t1 (st : QA.State) log :
  Js.trim (QA.question st) <> "" ->
  fst (QA.handleSubmit (Resolved data) t0 t1 st log)
  = QA.mkState "" (QA.selectedDocument st)
      ((QA.chatHistory st ++ [QA.mkMessage t0 "user" (QA.question st) None None t0])
       ++ [QA.mkMessage (t1 + 1) "ai" (QA.answer data)
             (Some (Js.arr_or_empty (QA.answer_sources data)))
             (Js.num_or_null (QA.answer_confidence data)) t1])
      false.
Proof.
  intros Hq. apply String.eqb_neq in Hq.
  unfold QA.handleSubmit. rewrite Hq. reflexivity.
Qed.

(** C5.  When the ask request fails ([askQuestion] returns [success =
    false]), the chat history receives, after the user's question, exactly
    one entry of type [error] carrying the error message of the result, and
    no entry of type [ai]. *)
Theorem failed_ask_surfaces_error (reply : Reply QA.Answer) (t0 t1 : Z)
    (st : QA.State) (log : list Effect) :
  Js.trim (QA.question st) <> "" ->
  let result :=
    fst (DocumentContext.askQuestion reply (QA.question st)
           (QA.str_or_null (QA.selectedDocument st)) log) in
  DocumentContext.success result = false ->
  let st' := fst (QA.handleSubmit reply t0 t1 st log) in
  exists userMessage errorMessage : QA.Message,
    QA.chatHistory st' = QA.chatHistory st ++ [userMessage; errorMessage] /\
    QA.mtype userMessage = "user" /\
    QA.content userMessage = QA.question st /\
    QA.mtype errorMessage = "error" /\
    DocumentContext.error result = Some (QA.content errorMessage) /\
    QA.content errorMessage <> "" /\
    QA.count_type "error" (QA.chatHistory st')
      = S (QA.count_type "error" (QA.chatHistory st)) /\
    QA.count_type "ai" (QA.chatHistory st') = QA.count_type "ai" (QA.chatHistory st).
Proof.
  intros Hq result Hfail st'. subst result st'.
  destruct reply as [data | detail]; [discriminate|].
  rewrite handleSubmit_rejected by exact Hq. simpl.
  eexists; eexists.
  split; [rewrite <- app_assoc; reflexivity|].
  repeat split; simpl.
  - apply ostr_or_nonempty. discriminate.
  - rewrite !count_type_app. unfold QA.count_type. simpl. lia.
  - rewrite !count_type_app. unfold QA.count_type. simpl. lia.
Qed.

Lemma failed_ask_surfaces_error_witness :
  exists userMessage errorMessage : QA.Message,
    QA.chatHistory
      (fst (QA.handleSubmit (Rejected (Some "Embedding provider unavailable")) 0 1
              Examples.qa_state []))
    = [userMessage; errorMessage] /\
    QA.mtype errorMessage = "error" /\
    QA.content errorMessage <> "".
Proof.
  destruct (failed_ask_surfaces_error (Rejected (Some "Embedding provider unavailable"))
              0 1 Examples.qa_state [] ltac:(discriminate) ltac:(reflexivity))
    as (userMessage & errorMessage & Hhist & _ & _ & Htype & _ & Hcontent & _).
  exists userMessage, errorMessage.
  split; [exact Hhist|]. split; [exact Htype | exact Hcontent].
Defined.

(** C9.  A successful answer whose confidence is exactly 0 is stored with
    a [null] confidence, the message shows no confidence indicator, and the
    page ends in the state it reaches for an answer without any confidence. *)
Theorem zero_confidence_hidden (data : QA.Answer) (c : Q) (t0 t1 : Z)
    (st : QA.State) (log : list Effect) :
  Js.trim (QA.question st) <> "" ->
  QA.answer_confidence data = Some c -> (c == 0)%Q ->
  let st' := fst (QA.handleSubmit (Resolved data) t0 t1 st log) in
  let absent := QA.mkAnswer (QA.answer data) (QA.answer_sources data) None in
  exists aiMessage : QA.Message,
    last (QA.chatHistory st') = Some aiMessage /\
    QA.mtype aiMessage = "ai" /\
    QA.confidence aiMessage = None /\
    QA.renderConfidence aiMessage = [] /\
    st' = fst (QA.handleSubmit (Resolved absent) t0 t1 st log).
Proof.
  intros Hq Hc Hzero st' absent. subst st' absent.
  rewrite !handleSubmit_resolved by exact Hq. simpl.
  apply Qeq_bool_iff in Hzero.
  rewrite Hc. simpl. rewrite Hzero.
  eexists. split; [apply last_snoc|].
  repeat split; reflexivity.
Qed.

Lemma zero_confidence_hidden_witness :
  exists aiMessage : QA.Message,
    last (QA.chatHistory
            (fst (QA.handleSubmit (Resolved Examples.answer_none) 0 1 Examples.qa_state [])))
    = Some aiMessage /\
    QA.confidence aiMessage = None /\
    QA.renderConfidence aiMessage = [].
Proof.
  destruct (zero_confidence_hidden Examples.answer_none 0%Q 0 1 Examples.qa_state []
              ltac:(discriminate) ltac:(reflexivity) ltac:(reflexivity))
    as (aiMessage & Hlast & _ & Hconf & Hrender & _).
  exists aiMessage. split; [exact Hlast|]. split; [exact Hconf | exact Hrender].
Defined.

(** ** Citations *)

Lemma renderSource_text (source : QA.Source) :
  text_nodes (QA.renderSource source)
  = QA.citation_text (QA.title source) (QA.chunk_text source).
Proof.
  unfold QA.renderSource, QA.citation_text, QA.otext.
  destruct (QA.title source) as [t|], (QA.chunk_text source) as [c|]; simpl;
    try destruct (String.eqb c ""); reflexivity.
Qed.

(** C7, as amended.  For a successful answer every source of
    [Answer.sources] is rendered, in order, from its [title] and
    [chunk_text] fields alone, with no lookup: the citation shows the
    title and, when there is chunk text, its first 100 characters followed
    by an ellipsis. *)
Theorem citations_from_source_fields (data : QA.Answer) (t0 t1 : Z)
    (st : QA.State) (log : list Effect) :
  Js.trim (QA.question st) <> "" ->
  let st' := fst (QA.handleSubmit (Resolved data) t0 t1 st log) in
  let srcs := Js.arr_or_empty (QA.answer_sources data) in
  exists aiMessage : QA.Message,
    last (QA.chatHistory st') = Some aiMessage /\
    QA.sources aiMessage = Some srcs /\
    QA.renderDetails aiMessage
      = [NElem "div" "mt-3 space-y-2"
           (QA.renderConfidence aiMessage ++ QA.renderSources aiMessage)] /\
    (srcs <> [] ->
     QA.renderSources aiMessage
     = [NElem "div" "mt-2"
          [NElem "p" "text-xs text-gray-500 mb-1" [NText "Sources:"];
           NElem "div" "space-y-1" (List.map QA.renderSource srcs)]]) /\
    (forall source, In source srcs ->
       text_nodes (QA.renderSource source)
       = QA.citation_text (QA.title source) (QA.chunk_text source)) /\
    (forall s1 s2 : QA.Source,
       QA.title s1 = QA.title s2 -> QA.chunk_text s1 = QA.chunk_text s2 ->
       QA.renderSource s1 = QA.renderSource s2).
Proof.
  intros Hq st' srcs. subst st'.
  rewrite handleSubmit_resolved by exact Hq. simpl.
  eexists. split; [apply last_snoc|]. simpl.
  split; [reflexivity|]. split; [reflexivity|].
  split; [|split].
  - unfold QA.renderSources. simpl. fold srcs.
    destruct srcs as [|s l]; [congruence | reflexivity].
  - intros source _. apply renderSource_text.
  - intros s1 s2 Ht Hc. unfold QA.renderSource. rewrite Ht, Hc. reflexivity.
Qed.

Lemma citations_from_source_fields_witness :
  exists aiMessage : QA.Message,
    last (QA.chatHistory
            (fst (QA.handleSubmit (Resolved Examples.answer_cited) 0 1 Examples.qa_state [])))
    = Some aiMessage /\
    QA.sources aiMessage = Some [Examples.cited] /\
    text_nodes (QA.renderSource Examples.cited)
    = QA.citation_text (Some "Notes") (Some Examples.long_text).
Proof.
  destruct (citations_from_source_fields Examples.answer_cited 0 1 Examples.qa_state []
              ltac:(discriminate))
    as (aiMessage & Hlast & Hsrcs & _ & _ & Htext & _).
  exists aiMessage. split; [exact Hlast|]. split; [exact Hsrcs|].
  apply (Htext Examples.cited). left. reflexivity.
Defined.

(** C7 as stated fails: the citation of a source whose chunk text has 101
    characters shows the first 100 and an ellipsis, not the chunk text. *)
Lemma citations_counterexample :
  QA.chunk_text Examples.cited = Some Examples.long_text /\
  String.length Examples.long_text = 101 /\
  text_nodes (QA.renderSource Examples.cited)
  = ["Notes"; String.substring 0 100 Examples.long_text; "..."] /\
  ~ In Examples.long_text (text_nodes (QA.renderSource Examples.cited)).
Proof.
  split; [reflexivity|]. split; [reflexivity|]. split; [reflexivity|].
  vm_compute. intros [H | [H | [H | []]]]; discriminate.
Qed.

(** ** Upload validation *)

Lemma acceptedFiles_pass (dropped : list File) :
  Forall (fun f => Upload.passes f = true)
         (Dropzone.acceptedFiles Upload.accept Upload.maxSize dropped).
Proof.
  apply List.Forall_forall. intros f Hf.
  unfold Dropzone.acceptedFiles in Hf. apply filter_In in Hf as [_ Hf]. exact Hf.
Qed.

Lemma imap_files {B : Type} (g : nat -> File -> B) (proj : B -> File) (l : list File) :
  (forall i f, proj (g i f) = f) -> List.map proj (imap g l) = l.
Proof.
  revert g. induction l as [|x l IH]; intros g Hg; simpl.
  - reflexivity.
  - rewrite Hg. f_equal. apply IH. intros i f. apply Hg.
Qed.

Lemma onDrop_files random accepted (st : Upload.State) :
  List.map Upload.file (Upload.uploadedFiles (Upload.onDrop random accepted st))
  = List.map Upload.file (Upload.uploadedFiles st) ++ accepted.
Proof.
  unfold Upload.onDrop. simpl. rewrite List.map_app. f_equal.
  apply imap_files. reflexivity.
Qed.

Lemma set_status_files fileId status progress (files : list Upload.FileObj) :
  List.map Upload.file (Upload.set_status fileId status progress files)
  = List.map Upload.file files.
Proof.
  unfold Upload.set_status. rewrite List.map_map. apply List.map_ext.
  intros f. destruct (String.eqb (Upload.id f) fileId); reflexivity.
Qed.

Lemma uploads_app (l1 l2 : list Effect) : uploads (l1 ++ l2) = uploads l1 ++ uploads l2.
Proof. unfold uploads. apply flat_map_app. Qed.

Lemma uploadDocument_uploads {D R : Type} (reply : Reply D) (refresh : Reply (option R))
    f title description log :
  uploads (snd (DocumentContext.uploadDocument reply refresh f title description log))
  = uploads log ++ [f].
Proof.
  unfold DocumentContext.uploadDocument, DocumentContext.fetchDocuments, bind, emit, ret.
  destruct reply, refresh as [[data'|]|]; simpl; rewrite ?uploads_app; simpl; rewrite ?app_nil_r;
    reflexivity.
Qed.

(** The loop uploads the files of its snapshot, one request each, and
    changes no file of the state. *)
Lemma upload_each_spec reply_for refresh_for form todo files log :
  List.map Upload.file (fst (Upload.upload_each reply_for refresh_for form todo files log))
  = List.map Upload.file files /\
  uploads (snd (Upload.upload_each reply_for refresh_for form todo files log))
  = uploads log ++ List.map Upload.file todo.
Proof.
  revert files log. induction todo as [|fileObj rest IH]; intros files log; simpl.
  - rewrite app_nil_r. split; reflexivity.
  - unfold bind.
    pose proof (uploadDocument_uploads (reply_for (Upload.file fileObj))
                  (refresh_for (Upload.file fileObj)) (Upload.file fileObj)
                  (Js.str_or (Upload.title form) (name (Upload.file fileObj)))
                  (Upload.description form) log) as Hup.
    destruct (DocumentContext.uploadDocument _ _ _ _ _ log) as [result log'].
    simpl in Hup.
    match goal with
    | |- context [Upload.upload_each _ _ _ rest ?fs log'] =>
        destruct (IH fs log') as [IHf IHu]
    end.
    split.
    + rewrite IHf. destruct (DocumentContext.success result); apply set_status_files.
    + rewrite IHu, Hup, <- app_assoc. reflexivity.
Qed.

Lemma step_invariant ev (st : Upload.State) log :
  Upload.invariant st log ->
  Upload.invariant (fst (Upload.step ev st log)) (snd (Upload.step ev st log)).
Proof.
  intros [Hfiles Hlog]. destruct ev as [dropped random | fileId | field value | reply_for refresh_for];
    simpl.
  - split; [|exact Hlog]. rewrite onDrop_files.
    apply Forall_app. split; [exact Hfiles | apply acceptedFiles_pass].
  - split; [|exact Hlog]. unfold Upload.removeFile. simpl.
    rewrite List.Forall_forall in *. intros f Hf. apply Hfiles.
    apply in_map_iff in Hf as [o [<- Ho]]. apply filter_In in Ho as [Ho _].
    apply in_map. exact Ho.
  - split; [|exact Hlog]. unfold Upload.handleInputChange.
    destruct (String.eqb field "title"); [exact Hfiles|].
    destruct (String.eqb field "description"); exact Hfiles.
  - unfold Upload.handleSubmit.
    destruct (Upload.uploadedFiles st) as [|o rest] eqn:E.
    + unfold Upload.invariant, bind, emit, ret. simpl. rewrite E.
      split; [exact Hfiles|].
      rewrite uploads_app, app_nil_r. exact Hlog.
    + unfold bind.
      destruct (upload_each_spec reply_for refresh_for (Upload.formData st) (o :: rest) (o :: rest) log)
        as [Hf Hu].
      destruct (Upload.upload_each reply_for refresh_for (Upload.formData st) (o :: rest) (o :: rest) log)
        as [files log'].
      simpl in Hf, Hu.
      assert (Hlog' : Forall (fun f => Upload.passes f = true) (uploads log')).
      { rewrite Hu. apply Forall_app. split; assumption. }
      destruct (existsb _ _); simpl.
      * split; [simpl; rewrite Hf; exact Hfiles | exact Hlog'].
      * split; [constructor | exact Hlog'].
Qed.

Lemma run_invariant evs (st : Upload.State) log :
  Upload.invariant st log ->
  Upload.invariant (fst (Upload.run evs st log)) (snd (Upload.run evs st log)).
Proof.
  revert st log. induction evs as [|ev evs IH]; intros st log Hinv; simpl.
  - exact Hinv.
  - unfold bind. pose proof (step_invariant ev st log Hinv) as Hstep.
    destruct (Upload.step ev st log) as [st' log']. apply IH. exact Hstep.
Qed.

(** C6.  A file larger than 10 MB, or of a type outside the allowlist (its
    MIME type is none of the four accepted and its name has none of the
    extensions pdf, docx, txt, md), is rejected when it is offered:
    whatever happens on the page, it is never among the selected files and
    no upload request is issued for it. *)
Theorem invalid_upload_rejected (evs : list Upload.Event) (f : File) :
  (10 * 1024 * 1024 < size f)%Z \/ Dropzone.accepts f Upload.accept = false ->
  ~ In f (List.map Upload.file
            (Upload.uploadedFiles (fst (Upload.run evs Upload.initial [])))) /\
  ~ In f (uploads (effects_of (Upload.run evs Upload.initial))).
Proof.
  intros Hbad.
  assert (Hfail : Upload.passes f = false).
  { unfold Upload.passes, Dropzone.fileMatchSize, Upload.maxSize.
    destruct Hbad as [Hsize | Htype].
    - apply Z.ltb_lt in Hsize. rewrite Hsize. apply andb_false_r.
    - rewrite Htype. reflexivity. }
  destruct (run_invariant evs Upload.initial []) as [Hfiles Hlog].
  { split; constructor. }
  unfold effects_of.
  rewrite List.Forall_forall in Hfiles, Hlog.
  split; intros Hin.
  - apply Hfiles in Hin. congruence.
  - apply Hlog in Hin. congruence.
Qed.

Lemma invalid_upload_rejected_witness :
  (~ In Examples.too_large
       (List.map Upload.file
          (Upload.uploadedFiles (fst (Upload.run Examples.session Upload.initial [])))) /\
   ~ In Examples.too_large
       (uploads (effects_of (Upload.run Examples.session Upload.initial)))) /\
  (~ In Examples.foreign
       (List.map Upload.file
          (Upload.uploadedFiles (fst (Upload.run Examples.session Upload.initial [])))) /\
   ~ In Examples.foreign
       (uploads (effects_of (Upload.run Examples.session Upload.initial)))).
Proof.
  split.
  - apply (invalid_upload_rejected Examples.session Examples.too_large).
    left. reflexivity.
  - apply (invalid_upload_rejected Examples.session Examples.foreign).
    right. reflexivity.
Defined.

(** * Further properties of the client *)

(** ** Order of strings *)

Lemma string_compare_trans (a b c : string) :
  String.compare a b <> Lt -> String.compare b c <> Lt -> String.compare a c <> Lt.
Proof.
  revert b c. induction a as [|x a IH]; intros [|y b] [|z c]; simpl; try congruence.
  unfold Ascii.compare.
  destruct (N.compare_spec (N_of_ascii x) (N_of_ascii y)) as [Exy | Lxy | Gxy];
    destruct (N.compare_spec (N_of_ascii y) (N_of_ascii z)) as [Eyz | Lyz | Gyz];
    destruct (N.compare_spec (N_of_ascii x) (N_of_ascii z)) as [Exz | Lxz | Gxz];
    try congruence; try lia.
  apply IH.
Qed.

Lemma ltb_false_trans (a b c : string) :
  String.ltb a b = false -> String.ltb b c = false -> String.ltb a c = false.
Proof.
  unfold String.ltb. intros Hab Hbc.
  pose proof (string_compare_trans a b c) as H.
  destruct (String.compare a b), (String.compare b c), (String.compare a c);
    try reflexivity; try discriminate; exfalso; apply H; congruence.
Qed.

Lemma ltb_asym (a b : string) : String.ltb a b = true -> String.ltb b a = false.
Proof.
  unfold String.ltb. rewrite (String.compare_antisym a b).
  destruct (String.compare b a); simpl; congruence.
Qed.

(** ** Insertion sort on lists whose elements can all be compared *)

Section InsertionFactsOn.
Context {A : Type} (before : A -> A -> bool) (R : A -> A -> Prop) (P : A -> Prop).
Hypothesis R_trans : forall x y z, R x y -> R y z -> R x z.
Hypothesis before_true : forall x y, P x -> P y -> before x y = true -> R x y.
Hypothesis before_false : forall x y, P x -> P y -> before x y = false -> R y x.

Lemma insert_sorted_on x l :
  P x -> Forall P l -> StronglySorted R l ->
  StronglySorted R (Insertion.insert before x l).
Proof.
  intros Hx Hl Hs. induction Hs as [|y l Hs IH Hy]; simpl.
  - repeat constructor.
  - apply Forall_cons in Hl as [Py Pl].
    destruct (before x y) eqn:E.
    + constructor; [constructor; assumption|].
      constructor; [apply before_true; assumption|].
      eapply Forall_impl; [exact Hy|].
      intros z Hz. eapply R_trans; [apply before_true; eassumption | exact Hz].
    + constructor; [apply IH; exact Pl|].
      apply insert_Forall; [apply before_false; assumption | exact Hy].
Qed.

Lemma sort_from_sorted_on l acc :
  Forall P l -> Forall P acc -> StronglySorted R acc ->
  StronglySorted R (fold_left (fun acc x => Insertion.insert before x acc) l acc).
Proof.
  revert acc. induction l as [|x l IH]; intros acc Hl Hacc Hs; simpl.
  - exact Hs.
  - apply Forall_cons in Hl as [Px Pl]. apply IH.
    + exact Pl.
    + apply insert_Forall; assumption.
    + apply insert_sorted_on; assumption.
Qed.

Lemma sort_sorted_on l : Forall P l -> StronglySorted R (Insertion.sort before l).
Proof. intros Hl. apply sort_from_sorted_on; [exact Hl | constructor | constructor]. Qed.

End InsertionFactsOn.

(** ** The Search page in its other sort states *)

Local Open Scope Q_scope.

(** X1.  Whatever the sort state and the date parser, the list the Search
    page shows holds exactly the results of the state: each result once,
    none added, none dropped. *)
Theorem search_shows_every_result date_parse (st : Search.State) :
  Permutation (Search.sortedResults date_parse st) (Search.results st) /\
  length (Search.sortedResults date_parse st) = length (Search.results st).
Proof.
  assert (H : Permutation (Search.sortedResults date_parse st) (Search.results st))
    by apply sort_perm.
  split; [exact H | apply Permutation_length; exact H].
Qed.

Lemma compare_by_similarity date_parse sortBy sortOrder (x y : Search.ResultItem) :
  sortBy <> "date" -> sortBy <> "title" ->
  (Search.compare date_parse sortBy sortOrder x y <? 0)%Z
  = if String.eqb sortOrder "asc"
    then Qle_bool (Search.similarity x) (Search.similarity y)
    else Qle_bool (Search.similarity y) (Search.similarity x).
Proof.
  intros Hd Ht. apply String.eqb_neq in Hd, Ht.
  unfold Search.compare, Search.sort_value, Search.similarity.
  rewrite Hd, Ht. destruct (String.eqb sortBy "similarity"); simpl;
    destruct (String.eqb sortOrder "asc"); simpl;
    destruct (Qle_bool _ _); reflexivity.
Qed.

Lemma Qle_bool_false (x y : Q) : Qle_bool x y = false -> y <= x.
Proof.
  intros H. apply Qlt_le_weak, Qnot_le_lt. intros Hle.
  apply Qle_bool_iff in Hle. congruence.
Qed.

(** X2.  When [sortBy] is neither [date] nor [title] (so also for a value
    the page does not know) the results are ordered by similarity:
    non-decreasing when [sortOrder] is [asc], non-increasing for every other
    [sortOrder]. *)
Theorem search_order_by_similarity date_parse (st : Search.State) :
  Search.sortBy st <> "date" -> Search.sortBy st <> "title" ->
  forall (i j : nat) (a b : Search.ResultItem),
    (i < j)%nat ->
    Search.sortedResults date_parse st !! i = Some a ->
    Search.sortedResults date_parse st !! j = Some b ->
    if String.eqb (Search.sortOrder st) "asc"
    then Search.similarity a <= Search.similarity b
    else Search.similarity b <= Search.similarity a.
Proof.
  intros Hd Ht i j a b Hij Ha Hb.
  unfold Search.sortedResults, Js.array_sort in Ha, Hb.
  destruct (String.eqb (Search.sortOrder st) "asc") eqn:Eo.
  - refine (sorted_lookup (fun a b => Search.similarity a <= Search.similarity b)
              _ _ i j a b Hij Ha Hb).
    apply sort_sorted.
    + intros x y z Hxy Hyz. eapply Qle_trans; eassumption.
    + intros x y. rewrite compare_by_similarity, Eo by assumption.
      apply Qle_bool_imp_le.
    + intros x y. rewrite compare_by_similarity, Eo by assumption.
      apply Qle_bool_false.
  - refine (sorted_lookup (fun a b => Search.similarity b <= Search.similarity a)
              _ _ i j a b Hij Ha Hb).
    apply sort_sorted.
    + intros x y z Hxy Hyz. eapply Qle_trans; eassumption.
    + intros x y. rewrite compare_by_similarity, Eo by assumption.
      apply Qle_bool_imp_le.
    + intros x y. rewrite compare_by_similarity, Eo by assumption.
      apply Qle_bool_false.
Qed.

Lemma search_order_by_similarity_witness :
  Search.similarity (Examples.hit None) <= Search.similarity (Examples.hit (Some (9 # 10))).
Proof.
  apply (search_order_by_similarity (fun _ => None)
           (Search.mkState "notes" (Search.results Examples.search_state)
              false "relevance" "asc" true)
           ltac:(discriminate) ltac:(discriminate) 0%nat 2%nat);
    [lia | vm_compute; reflexivity | vm_compute; reflexivity].
Defined.

Local Close Scope Q_scope.

(** The title the comparator reads: [document_title || '']. *)
Lemma compare_by_title date_parse sortOrder (x y : Search.ResultItem) :
  (Search.compare date_parse "title" sortOrder x y <? 0)%Z
  = if String.eqb sortOrder "asc"
    then negb (String.ltb (Js.ostr_or (Search.document_title y) "")
                          (Js.ostr_or (Search.document_title x) ""))
    else negb (String.ltb (Js.ostr_or (Search.document_title x) "")
                          (Js.ostr_or (Search.document_title y) "")).
Proof.
  unfold Search.compare, Search.sort_value. simpl.
  destruct (String.eqb sortOrder "asc"); simpl; destruct (String.ltb _ _); reflexivity.
Qed.

(** X3.  Sorted by title, the results follow the order of their titles
    ([document_title || ''], compared character by character): under
    [asc] no result is followed by one with a strictly smaller title, under
    any other [sortOrder] by none with a strictly larger title. *)
Theorem search_order_by_title date_parse (st : Search.State) :
  Search.sortBy st = "title" ->
  forall (i j : nat) (a b : Search.ResultItem),
    (i < j)%nat ->
    Search.sortedResults date_parse st !! i = Some a ->
    Search.sortedResults date_parse st !! j = Some b ->
    let title x := Js.ostr_or (Search.document_title x) "" in
    if String.eqb (Search.sortOrder st) "asc"
    then String.ltb (title b) (title a) = false
    else String.ltb (title a) (title b) = false.
Proof.
  intros Hby i j a b Hij Ha Hb title.
  unfold Search.sortedResults, Js.array_sort in Ha, Hb. rewrite Hby in Ha, Hb.
  destruct (String.eqb (Search.sortOrder st) "asc") eqn:Eo.
  - refine (sorted_lookup (fun a b => String.ltb (title b) (title a) = false)
              _ _ i j a b Hij Ha Hb).
    apply sort_sorted.
    + intros x y z Hxy Hyz. eapply ltb_false_trans; eassumption.
    + intros x y. rewrite compare_by_title, Eo. apply negb_true_iff.
    + intros x y. rewrite compare_by_title, Eo. intros H.
      apply negb_false_iff in H. apply ltb_asym. exact H.
  - refine (sorted_lookup (fun a b => String.ltb (title a) (title b) = false)
              _ _ i j a b Hij Ha Hb).
    apply sort_sorted.
    + intros x y z Hxy Hyz. eapply ltb_false_trans; eassumption.
    + intros x y. rewrite compare_by_title, Eo. apply negb_true_iff.
    + intros x y. rewrite compare_by_title, Eo. intros H.
      apply negb_false_iff in H. apply ltb_asym. exact H.
Qed.

Lemma search_order_by_title_witness :
  String.ltb (Js.ostr_or (Search.document_title (Examples.dated (Some "Report") None)) "")
             (Js.ostr_or (Search.document_title
                            (Examples.dated None (Some "2024-06-01"))) "")
  = false.
Proof.
  apply (search_order_by_title Examples.parse Examples.by_title ltac:(reflexivity)
           0%nat 2%nat);
    [lia | vm_compute; reflexivity | vm_compute; reflexivity].
Defined.

Lemma compare_by_date date_parse sortOrder (x y : Search.ResultItem) (tx ty : Z) :
  Search.date_of date_parse (Search.created_at x) = Some tx ->
  Search.date_of date_parse (Search.created_at y) = Some ty ->
  (Search.compare date_parse "date" sortOrder x y <? 0)%Z
  = if String.eqb sortOrder "asc" then (tx <=? ty)%Z else (ty <=? tx)%Z.
Proof.
  intros Hx Hy. unfold Search.compare, Search.sort_value. simpl. rewrite Hx, Hy.
  destruct (String.eqb sortOrder "asc"); simpl.
  - destruct (Z.ltb_spec ty tx), (Z.leb_spec tx ty); try reflexivity; lia.
  - destruct (Z.ltb_spec tx ty), (Z.leb_spec ty tx); try reflexivity; lia.
Qed.

Lemma sorted_by_date date_parse sortOrder (l : list Search.ResultItem) :
  Forall (fun x => Search.date_of date_parse (Search.created_at x) <> None) l ->
  StronglySorted
    (fun x y => exists tx ty,
       Search.date_of date_parse (Search.created_at x) = Some tx /\
       Search.date_of date_parse (Search.created_at y) = Some ty /\
       if String.eqb sortOrder "asc" then (tx <= ty)%Z else (ty <= tx)%Z)
    (Insertion.sort (fun x y => (Search.compare date_parse "date" sortOrder x y <? 0)%Z) l).
Proof.
  apply sort_sorted_on.
  - intros x y z (tx & ty & Hx & Hy & Hxy) (ty' & tz & Hy' & Hz & Hyz).
    rewrite Hy in Hy'. injection Hy' as <-.
    exists tx, tz. split; [exact Hx|]. split; [exact Hz|].
    destruct (String.eqb sortOrder "asc"); lia.
  - intros x y Px Py.
    destruct (Search.date_of date_parse (Search.created_at x)) as [tx|] eqn:Hx; [|congruence].
    destruct (Search.date_of date_parse (Search.created_at y)) as [ty|] eqn:Hy; [|congruence].
    rewrite (compare_by_date _ _ _ _ tx ty Hx Hy). intros H.
    exists tx, ty. split; [reflexivity|]. split; [reflexivity|].
    destruct (String.eqb sortOrder "asc"); apply Z.leb_le; exact H.
  - intros x y Px Py.
    destruct (Search.date_of date_parse (Search.created_at x)) as [tx|] eqn:Hx; [|congruence].
    destruct (Search.date_of date_parse (Search.created_at y)) as [ty|] eqn:Hy; [|congruence].
    rewrite (compare_by_date _ _ _ _ tx ty Hx Hy). intros H.
    exists ty, tx. split; [reflexivity|]. split; [reflexivity|].
    destruct (String.eqb sortOrder "asc"); apply Z.leb_gt in H; lia.
Qed.

(** X4.  Sorted by date, results whose dates all parse follow the order of
    their dates ([created_at || 0] as a time): non-decreasing under [asc],
    non-increasing under any other [sortOrder]. *)
Theorem search_order_by_date date_parse (st : Search.State) :
  Search.sortBy st = "date" ->
  (forall item, In item (Search.results st) ->
     Search.date_of date_parse (Search.created_at item) <> None) ->
  forall (i j : nat) (a b : Search.ResultItem) (ta tb : Z),
    (i < j)%nat ->
    Search.sortedResults date_parse st !! i = Some a ->
    Search.sortedResults date_parse st !! j = Some b ->
    Search.date_of date_parse (Search.created_at a) = Some ta ->
    Search.date_of date_parse (Search.created_at b) = Some tb ->
    if String.eqb (Search.sortOrder st) "asc" then (ta <= tb)%Z else (tb <= ta)%Z.
Proof.
  intros Hby Hvalid i j a b ta tb Hij Ha Hb Hta Htb.
  unfold Search.sortedResults, Js.array_sort in Ha, Hb. rewrite Hby in Ha, Hb.
  assert (HP : Forall (fun x => Search.date_of date_parse (Search.created_at x) <> None)
                 (Search.results st))
    by (apply List.Forall_forall; exact Hvalid).
  destruct (sorted_lookup _ _ (sorted_by_date date_parse (Search.sortOrder st) _ HP)
              i j a b Hij Ha Hb) as (tx & ty & Hx & Hy & Hle).
  rewrite Hta in Hx. rewrite Htb in Hy.
  injection Hx as <-. injection Hy as <-. exact Hle.
Qed.

Lemma search_order_by_date_witness : (0 <= 1717200000000)%Z.
Proof.
  apply (search_order_by_date Examples.parse Examples.by_date ltac:(reflexivity)
           ltac:(intros item [<- | [<- | [<- | []]]]; discriminate)
           0%nat 2%nat
           (Examples.dated None (Some "2024-06-01")) (Examples.dated (Some "Report") None));
    [lia | vm_compute; reflexivity | vm_compute; reflexivity
     | reflexivity | reflexivity].
Defined.

(** ** What a search does to the page *)

(** X5.  A query that is empty or all white space is not sent: the handler
    shows one error toast, issues no request and leaves the state of the
    page, the results included, as it was. *)
Theorem blank_search_not_sent (reply : Reply Search.SearchResponse)
    (st : Search.State) (log : list Effect) :
  Js.trim (Search.query st) = "" ->
  Search.handleSearch reply st log
  = (st, log ++ [ToastError "Please enter a search query"]).
Proof.
  intros Hq. unfold Search.handleSearch. rewrite Hq. reflexivity.
Qed.

Lemma blank_search_not_sent_witness :
  Search.handleSearch (Rejected None) Examples.blank_search []
  = (Examples.blank_search, [ToastError "Please enter a search query"]).
Proof.
  apply (blank_search_not_sent (Rejected None) Examples.blank_search []). reflexivity.
Defined.

Lemma error_toasts_app (l1 l2 : list Effect) :
  error_toasts (l1 ++ l2) = error_toasts l1 ++ error_toasts l2.
Proof. unfold error_toasts. apply flat_map_app. Qed.

Lemma info_toasts_app (l1 l2 : list Effect) :
  info_toasts (l1 ++ l2) = info_toasts l1 ++ info_toasts l2.
Proof. unfold info_toasts. apply flat_map_app. Qed.

(** X6.  A search that fails keeps the results of the previous search on
    the page: the state changes only in [loading] and [hasSearched], and the
    one error toast shows the detail of the failure, or [Search failed] when
    there is none. *)
Theorem failed_search_keeps_results (detail : option string)
    (st : Search.State) (log : list Effect) :
  Js.trim (Search.query st) <> "" ->
  let st' := fst (Search.handleSearch (Rejected detail) st log) in
  let log' := snd (Search.handleSearch (Rejected detail) st log) in
  st' = Search.mkState (Search.query st) (Search.results st) false
          (Search.sortBy st) (Search.sortOrder st) true /\
  error_toasts log' = error_toasts log ++ [Js.ostr_or detail "Search failed"] /\
  Js.ostr_or detail "Search failed" <> "".
Proof.
  intros Hq. apply String.eqb_neq in Hq.
  unfold Search.handleSearch. rewrite Hq.
  unfold DocumentContext.searchDocuments, bind, emit, ret. simpl.
  split; [reflexivity|]. split.
  - rewrite !error_toasts_app. simpl. rewrite app_nil_r. reflexivity.
  - apply ostr_or_nonempty. discriminate.
Qed.

Lemma failed_search_keeps_results_witness :
  Search.results (fst (Search.handleSearch (Rejected (Some "")) Examples.by_title []))
  = Examples.dated_results /\
  error_toasts (snd (Search.handleSearch (Rejected (Some "")) Examples.by_title []))
  = ["Search failed"].
Proof.
  destruct (failed_search_keeps_results (Some "") Examples.by_title []
              ltac:(discriminate)) as (Hst & Htoast & _).
  split; [rewrite Hst; reflexivity | exact Htoast].
Defined.

(** X7.  A search that succeeds replaces the results by those of the
    response, by none when the response has no [results] property, and
    shows no error toast; the toast that nothing was found is asked for
    exactly when the response holds an empty array, and in every other case
    the page ends with [loading] off and [hasSearched] on. *)
Theorem successful_search_replaces_results (data : Search.SearchResponse)
    (st : Search.State) (log : list Effect) :
  Js.trim (Search.query st) <> "" ->
  let st' := fst (Search.handleSearch (Resolved data) st log) in
  let log' := snd (Search.handleSearch (Resolved data) st log) in
  Search.results st' = Js.arr_or_empty (Search.response_results data) /\
  error_toasts log' = error_toasts log /\
  (Search.response_results data = Some [] ->
     info_toasts log' = info_toasts log ++ ["No results found for your search query"]) /\
  (Search.response_results data <> Some [] ->
     info_toasts log' = info_toasts log /\
     st' = Search.mkState (Search.query st) (Js.arr_or_empty (Search.response_results data))
             false (Search.sortBy st) (Search.sortOrder st) true).
Proof.
  intros Hq. apply String.eqb_neq in Hq.
  unfold Search.handleSearch. rewrite Hq.
  unfold DocumentContext.searchDocuments, bind, emit, ret. simpl.
  destruct (Search.response_results data) as [[|item items]|]; simpl;
    rewrite ?error_toasts_app, ?info_toasts_app; simpl; rewrite ?app_nil_r;
    repeat split; try reflexivity; try congruence.
Qed.

Lemma successful_search_replaces_results_witness :
  Search.results
    (fst (Search.handleSearch (Resolved (Search.mkResponse None)) Examples.by_title []))
  = [] /\
  info_toasts
    (snd (Search.handleSearch (Resolved (Search.mkResponse None)) Examples.by_title []))
  = [].
Proof.
  destruct (successful_search_replaces_results (Search.mkResponse None)
              Examples.by_title [] ltac:(discriminate)) as (Hres & _ & _ & Hinfo).
  split; [exact Hres | apply Hinfo; discriminate].
Defined.

(** ** What a question does to the chat *)

(** X8.  A question that is empty or all white space is not asked: the
    handler shows one error toast, issues no request and leaves the chat
    history and the rest of the page as they were. *)
Theorem blank_question_not_asked (reply : Reply QA.Answer) (t0 t1 : Z)
    (st : QA.State) (log : list Effect) :
  Js.trim (QA.question st) = "" ->
  QA.handleSubmit reply t0 t1 st log
  = (st, log ++ [ToastError "Please enter a question"]).
Proof.
  intros Hq. unfold QA.handleSubmit. rewrite Hq. reflexivity.
Qed.

Lemma blank_question_not_asked_witness :
  QA.handleSubmit (Resolved Examples.answer_cited) 0 1 Examples.blank_qa []
  = (Examples.blank_qa, [ToastError "Please enter a question"]).
Proof.
  apply (blank_question_not_asked (Resolved Examples.answer_cited) 0 1 Examples.blank_qa []).
  reflexivity.
Defined.

(** X9.  Every question that is asked adds exactly two entries to the chat
    history and keeps the earlier ones: the user's question as typed, then
    one reply, of type [ai] when the request resolved and of type [error]
    when it was rejected; the input is cleared, the selected document kept
    and loading ends. *)
Theorem question_adds_two_entries (reply : Reply QA.Answer) (t0 t1 : Z)
    (st : QA.State) (log : list Effect) :
  Js.trim (QA.question st) <> "" ->
  let st' := fst (QA.handleSubmit reply t0 t1 st log) in
  exists userMessage replyMessage : QA.Message,
    QA.chatHistory st' = QA.chatHistory st ++ [userMessage; replyMessage] /\
    userMessage = QA.mkMessage t0 "user" (QA.question st) None None t0 /\
    QA.id replyMessage = (t1 + 1)%Z /\
    QA.mtype replyMessage
      = (match reply with Resolved _ => "ai" | Rejected _ => "error" end) /\
    QA.question st' = "" /\
    QA.selectedDocument st' = QA.selectedDocument st /\
    QA.loading st' = false.
Proof.
  intros Hq st'. subst st'. destruct reply as [data | detail].
  - rewrite handleSubmit_resolved by exact Hq. simpl.
    eexists; eexists. split; [rewrite <- app_assoc; reflexivity|].
    repeat split; reflexivity.
  - rewrite handleSubmit_rejected by exact Hq. simpl.
    eexists; eexists. split; [rewrite <- app_assoc; reflexivity|].
    repeat split; reflexivity.
Qed.

Lemma question_adds_two_entries_witness :
  exists userMessage replyMessage : QA.Message,
    QA.chatHistory
      (fst (QA.handleSubmit (Resolved Examples.answer_cited) 0 1 Examples.qa_state []))
    = [userMessage; replyMessage] /\
    QA.mtype replyMessage = "ai".
Proof.
  destruct (question_adds_two_entries (Resolved Examples.answer_cited) 0 1
              Examples.qa_state [] ltac:(discriminate))
    as (userMessage & replyMessage & Hhist & _ & _ & Htype & _).
  exists userMessage, replyMessage. split; [exact Hhist | exact Htype].
Defined.

Lemma math_round_percent (c : Q) :
  (0 <= c)%Q -> (c <= 1)%Q -> (0 <= Js.math_round (c * 100) <= 100)%Z.
Proof.
  intros H0 H1. unfold Js.math_round. split.
  - assert (H : (Qfloor 0 <= Qfloor (c * 100 + (1 # 2)))%Z)
      by (apply Qfloor_resp_le; lra).
    exact H.
  - assert (H : (Qfloor (c * 100 + (1 # 2)) <= Qfloor (201 # 2))%Z)
      by (apply Qfloor_resp_le; lra).
    exact H.
Qed.

(** X10.  The message stored for a successful answer never shows a stray
    [0] for its confidence: either nothing is shown (no confidence, or a
    confidence of 0), or the indicator with the confidence as a rounded
    percentage, which lies between 0 and 100 for a confidence in [0, 1]. *)
Theorem confidence_indicator (data : QA.Answer) (t0 t1 : Z)
    (st : QA.State) (log : list Effect) :
  Js.trim (QA.question st) <> "" ->
  let st' := fst (QA.handleSubmit (Resolved data) t0 t1 st log) in
  exists aiMessage : QA.Message,
    last (QA.chatHistory st') = Some aiMessage /\
    (QA.renderConfidence aiMessage = [] \/
     exists c : Q,
       QA.answer_confidence data = Some c /\ ~ (c == 0)%Q /\
       QA.renderConfidence aiMessage
       = [NElem "div" "flex items-center space-x-2"
            [NElem "span" "text-xs text-gray-500" [NText "Confidence:"];
             NElem "span" ("text-xs px-2 py-1 rounded-full " +:+ QA.getConfidenceColor c)
               [NInt (Js.math_round (c * 100)); NText "%"]]] /\
       ((0 <= c)%Q -> (c <= 1)%Q -> (0 <= Js.math_round (c * 100) <= 100)%Z)).
Proof.
  intros Hq st'. subst st'. rewrite handleSubmit_resolved by exact Hq. simpl.
  eexists. split; [apply last_snoc|].
  unfold QA.renderConfidence. simpl.
  destruct (QA.answer_confidence data) as [c|]; simpl; [|left; reflexivity].
  destruct (Qeq_bool c 0) eqn:E; simpl; [left; reflexivity|].
  right. exists c. rewrite E.
  split; [reflexivity|]. split; [apply Qeq_bool_neq; exact E|].
  split; [reflexivity | apply math_round_percent].
Qed.

Lemma confidence_indicator_witness :
  exists aiMessage : QA.Message,
    last (QA.chatHistory
            (fst (QA.handleSubmit (Resolved Examples.answer_cited) 0 1 Examples.qa_state [])))
    = Some aiMessage /\
    QA.renderConfidence aiMessage <> [NInt 0].
Proof.
  destruct (confidence_indicator Examples.answer_cited 0 1 Examples.qa_state []
              ltac:(discriminate)) as (aiMessage & Hlast & [Hnone | (c & _ & _ & Hshown & _)]).
  - exists aiMessage. split; [exact Hlast|]. rewrite Hnone. discriminate.
  - exists aiMessage. split; [exact Hlast|]. rewrite Hshown. discriminate.
Defined.

(** ** How the context reports the outcome of a request *)

(** X11.  [askQuestion], [searchDocuments] and [uploadDocument] report the
    outcome of their request in the same way.  When the request resolves
    the result is successful and carries the response data and no error;
    [askQuestion] and [searchDocuments] then show no error toast, and
    [uploadDocument] shows one only when the refresh of the document list
    that follows fails, its request rejected or answered without data
    ([Failed to fetch documents]), the upload still counting as a success.  When the request is rejected the result is a
    failure whose error is a non-empty message (the detail of the
    rejection, or a fixed message when the detail is missing or empty) and
    exactly that message is shown as one error toast. *)
Theorem context_reports_outcome {D R : Type} (reply : Reply D)
    (refresh : Reply (option R))
    (log : list Effect)
    (question : string) (documentId : option string)
    (query : string) (limit : option Z)
    (file : File) (title description : string) :
  let reported (fallback : string) (after_success : list string)
               (out : DocumentContext.Result D * list Effect) :=
    match reply with
    | Resolved data =>
        fst out = DocumentContext.mkResult true (Some data) None /\
        error_toasts (snd out) = error_toasts log ++ after_success
    | Rejected detail =>
        Js.ostr_or detail fallback <> "" /\
        fst out = DocumentContext.mkResult false None (Some (Js.ostr_or detail fallback)) /\
        error_toasts (snd out) = error_toasts log ++ [Js.ostr_or detail fallback]
    end in
  reported "Failed to get answer" []
    (DocumentContext.askQuestion reply question documentId log) /\
  reported "Search failed" []
    (DocumentContext.searchDocuments reply query limit log) /\
  reported "Upload failed"
    (if DocumentContext.fetched refresh then [] else ["Failed to fetch documents"])
    (DocumentContext.uploadDocument reply refresh file title description log).
Proof.
  unfold DocumentContext.askQuestion, DocumentContext.searchDocuments,
    DocumentContext.uploadDocument, DocumentContext.fetchDocuments, bind, emit, ret.
  destruct reply as [data | detail]; [destruct refresh as [[data'|]|]|]; simpl;
    rewrite ?error_toasts_app; simpl; rewrite ?app_nil_r.
  - repeat split; reflexivity.
  - repeat split; reflexivity.
  - repeat split; reflexivity.
  - repeat split; try reflexivity; apply ostr_or_nonempty; discriminate.
Qed.

(** ** Uploading the selected files *)

Lemma gets_app (l1 l2 : list Effect) : gets (l1 ++ l2) = gets l1 ++ gets l2.
Proof. unfold gets. apply flat_map_app. Qed.

Lemma upload_titles_app (l1 l2 : list Effect) :
  upload_titles (l1 ++ l2) = upload_titles l1 ++ upload_titles l2.
Proof. unfold upload_titles. apply flat_map_app. Qed.

Lemma str_or_str_or (s d : string) : Js.str_or (Js.str_or s d) d = Js.str_or s d.
Proof.
  unfold Js.str_or. destruct (String.eqb s "") eqn:E.
  - destruct (String.eqb d ""); reflexivity.
  - rewrite E. reflexivity.
Qed.

(** The error toasts of one upload: the reason of a refusal, or the
    failure of the refresh that follows an accepted upload. *)
Lemma uploadDocument_log {D R : Type} (reply : Reply D) (refresh : Reply (option R))
    f title description log :
  let log' := snd (DocumentContext.uploadDocument reply refresh f title description log) in
  upload_titles log' = upload_titles log ++ [Js.str_or title (name f)] /\
  gets log' = gets log ++ (if resolved reply then ["/documents"] else []) /\
  error_toasts log'
  = error_toasts log
    ++ (if resolved reply
        then (if DocumentContext.fetched refresh then [] else ["Failed to fetch documents"])
        else [Js.ostr_or (detail_of reply) "Upload failed"]).
Proof.
  unfold DocumentContext.uploadDocument, DocumentContext.fetchDocuments, bind, emit, ret.
  destruct reply, refresh as [[data'|]|]; simpl;
    rewrite ?upload_titles_app, ?gets_app, ?error_toasts_app; simpl;
    rewrite ?app_nil_r; repeat split; reflexivity.
Qed.

(** What the loop of [handleSubmit] adds to the log. *)
Lemma upload_each_log reply_for refresh_for form todo files log :
  let log' := snd (Upload.upload_each reply_for refresh_for form todo files log) in
  upload_titles log'
  = upload_titles log
    ++ List.map (fun o => Js.str_or (Upload.title form) (name (Upload.file o))) todo /\
  gets log'
  = gets log
    ++ List.map (fun _ => "/documents")
         (List.filter (fun o => resolved (reply_for (Upload.file o))) todo) /\
  error_toasts log'
  = error_toasts log
    ++ flat_map (fun o =>
         if resolved (reply_for (Upload.file o))
         then (if DocumentContext.fetched (refresh_for (Upload.file o)) then []
               else ["Failed to fetch documents"])
         else [Js.ostr_or (detail_of (reply_for (Upload.file o))) "Upload failed"]) todo.
Proof.
  revert files log. induction todo as [|o rest IH]; intros files log; simpl.
  - rewrite !app_nil_r. repeat split; reflexivity.
  - unfold bind.
    pose proof (uploadDocument_log (reply_for (Upload.file o)) (refresh_for (Upload.file o))
                  (Upload.file o)
                  (Js.str_or (Upload.title form) (name (Upload.file o)))
                  (Upload.description form) log) as (Ht & Hg & He).
    destruct (DocumentContext.uploadDocument _ _ _ _ _ log) as [result log1].
    simpl in Ht, Hg, He.
    match goal with
    | |- context [Upload.upload_each _ _ _ rest ?fs log1] =>
        destruct (IH fs log1) as (IHt & IHg & IHe)
    end.
    rewrite IHt, IHg, IHe, Ht, Hg, He, str_or_str_or.
    destruct (resolved (reply_for (Upload.file o))); simpl;
      rewrite <- ?app_assoc, ?app_nil_r; repeat split; reflexivity.
Qed.

(** X12.  Submitting the Upload page sends the selected files in the order
    they were selected, one request each, every one under the title typed
    into the form, or under the file's own name when no title was typed;
    with nothing selected, nothing is sent. *)
Theorem submit_uploads_each_file (reply_for : File -> Reply unit)
    (refresh_for : File -> Reply (option unit))
    (st : Upload.State) :
  let log := effects_of (Upload.handleSubmit reply_for refresh_for st) in
  uploads log = List.map Upload.file (Upload.uploadedFiles st) /\
  upload_titles log
  = List.map (fun o => Js.str_or (Upload.title (Upload.formData st)) (name (Upload.file o)))
      (Upload.uploadedFiles st) /\
  (Upload.uploadedFiles st = [] ->
     log = [ToastError "Please select at least one file to upload"]).
Proof.
  unfold effects_of, Upload.handleSubmit.
  destruct (Upload.uploadedFiles st) as [|o rest] eqn:E.
  - repeat split; reflexivity.
  - unfold bind.
    pose proof (upload_each_spec reply_for refresh_for (Upload.formData st) (o :: rest) (o :: rest) [])
      as [_ Hu].
    pose proof (upload_each_log reply_for refresh_for (Upload.formData st) (o :: rest) (o :: rest) [])
      as (Ht & _).
    destruct (Upload.upload_each reply_for refresh_for (Upload.formData st) (o :: rest) (o :: rest) [])
      as [files log'].
    simpl in Hu, Ht.
    destruct (existsb _ _); simpl; (split; [exact Hu|]); (split; [exact Ht | discriminate]).
Qed.

Lemma submit_uploads_each_file_witness :
  uploads (effects_of (Upload.handleSubmit Examples.first_only Examples.no_refresh Examples.two_selected))
  = [Examples.fine; Examples.report] /\
  upload_titles (effects_of (Upload.handleSubmit Examples.first_only Examples.no_refresh Examples.two_selected))
  = ["Quarterly"; "Quarterly"] /\
  effects_of (Upload.handleSubmit Examples.first_only Examples.no_refresh Upload.initial)
  = [ToastError "Please select at least one file to upload"].
Proof.
  destruct (submit_uploads_each_file Examples.first_only Examples.no_refresh Examples.two_selected)
    as (Hfiles & Htitles & _).
  destruct (submit_uploads_each_file Examples.first_only Examples.no_refresh Upload.initial) as (_ & _ & Hnone).
  split; [exact Hfiles|]. split; [exact Htitles | apply Hnone; reflexivity].
Defined.

(** X13.  During a submit the document list is fetched again once for
    every file the backend accepted and never for a refused one.  The error
    toasts of the submit are, file by file in selection order: for a refused
    upload its reason, or [Upload failed] when the backend gives none; for
    an accepted upload whose refresh fails (its request rejected or
    answered without data) [Failed to fetch documents]; and none for an
    accepted upload whose refresh succeeds. *)
Theorem submit_refreshes_per_success (reply_for : File -> Reply unit)
    (refresh_for : File -> Reply (option unit))
    (st : Upload.State) :
  Upload.uploadedFiles st <> [] ->
  let log := effects_of (Upload.handleSubmit reply_for refresh_for st) in
  gets log
  = List.map (fun _ => "/documents")
      (List.filter (fun o => resolved (reply_for (Upload.file o))) (Upload.uploadedFiles st)) /\
  error_toasts log
  = flat_map (fun o =>
      if resolved (reply_for (Upload.file o))
      then (if DocumentContext.fetched (refresh_for (Upload.file o)) then []
            else ["Failed to fetch documents"])
      else [Js.ostr_or (detail_of (reply_for (Upload.file o))) "Upload failed"])
      (Upload.uploadedFiles st).
Proof.
  intros Hne. unfold effects_of, Upload.handleSubmit.
  destruct (Upload.uploadedFiles st) as [|o rest] eqn:E; [congruence|].
  unfold bind.
  pose proof (upload_each_log reply_for refresh_for (Upload.formData st)
                (o :: rest) (o :: rest) []) as (_ & Hg & He).
  destruct (Upload.upload_each reply_for refresh_for (Upload.formData st)
              (o :: rest) (o :: rest) []) as [files log'].
  simpl in Hg, He.
  destruct (existsb _ _); simpl; split; assumption.
Qed.

Lemma submit_refreshes_per_success_witness :
  gets (effects_of (Upload.handleSubmit Examples.first_only Examples.no_refresh
                      Examples.two_selected))
  = ["/documents"] /\
  error_toasts (effects_of (Upload.handleSubmit Examples.first_only Examples.no_refresh
                              Examples.two_selected))
  = ["Failed to fetch documents"; "Too many chunks"].
Proof.
  destruct (submit_refreshes_per_success Examples.first_only Examples.no_refresh
              Examples.two_selected ltac:(discriminate)) as [Hg He].
  split; [exact Hg | exact He].
Defined.

Lemma set_status_ids fileId status progress (files : list Upload.FileObj) :
  List.map Upload.id (Upload.set_status fileId status progress files)
  = List.map Upload.id files.
Proof.
  unfold Upload.set_status. rewrite List.map_map. apply List.map_ext.
  intros f. destruct (String.eqb (Upload.id f) fileId); reflexivity.
Qed.

Lemma upload_each_ids reply_for refresh_for form todo files log :
  List.map Upload.id (fst (Upload.upload_each reply_for refresh_for form todo files log))
  = List.map Upload.id files.
Proof.
  revert files log. induction todo as [|o rest IH]; intros files log; simpl.
  - reflexivity.
  - unfold bind.
    destruct (DocumentContext.uploadDocument _ _ _ _ _ log) as [result log1].
    rewrite IH. destruct (DocumentContext.success result); apply set_status_ids.
Qed.

(** X14.  Whether a submit empties the page is decided by the selection as
    it was when the submit started, not by the outcome of the uploads: if no
    selected file was in status [error] then, the selection is emptied and
    the form reset even when every upload is refused; if one was, the
    selection keeps all its files and the form its content. *)
Theorem submit_reset_ignores_outcome (reply_for : File -> Reply unit)
    (refresh_for : File -> Reply (option unit))
    (st : Upload.State) (log : list Effect) :
  Upload.uploadedFiles st <> [] ->
  let st' := fst (Upload.handleSubmit reply_for refresh_for st log) in
  (Forall (fun o => Upload.status o <> "error") (Upload.uploadedFiles st) ->
     st' = Upload.mkState [] (Upload.mkFormData "" "")) /\
  (Exists (fun o => Upload.status o = "error") (Upload.uploadedFiles st) ->
     List.map Upload.file (Upload.uploadedFiles st')
     = List.map Upload.file (Upload.uploadedFiles st) /\
     List.map Upload.id (Upload.uploadedFiles st')
     = List.map Upload.id (Upload.uploadedFiles st) /\
     Upload.formData st' = Upload.formData st).
Proof.
  intros Hne. unfold Upload.handleSubmit.
  destruct (Upload.uploadedFiles st) as [|o rest] eqn:E; [congruence|].
  unfold bind.
  pose proof (upload_each_spec reply_for refresh_for (Upload.formData st) (o :: rest) (o :: rest) log)
    as [Hf _].
  pose proof (upload_each_ids reply_for refresh_for (Upload.formData st) (o :: rest) (o :: rest) log)
    as Hi.
  destruct (Upload.upload_each reply_for refresh_for (Upload.formData st) (o :: rest) (o :: rest) log)
    as [files log'].
  simpl in Hf, Hi. split.
  - intros Hall.
    assert (Hex : existsb (fun f => String.eqb (Upload.status f) "error") (o :: rest) = false).
    { apply not_true_is_false. intros Hex. apply existsb_exists in Hex as [x [Hx Hs]].
      rewrite List.Forall_forall in Hall. apply (Hall x Hx).
      apply String.eqb_eq. exact Hs. }
    rewrite Hex. reflexivity.
  - intros Hsome.
    assert (Hex : existsb (fun f => String.eqb (Upload.status f) "error") (o :: rest) = true).
    { apply List.Exists_exists in Hsome as [x [Hx Hs]].
      apply existsb_exists. exists x. split; [exact Hx | apply String.eqb_eq; exact Hs]. }
    rewrite Hex. simpl. repeat split; assumption.
Qed.

Lemma submit_reset_ignores_outcome_witness :
  fst (Upload.handleSubmit (fun _ => Rejected None) (fun _ => Resolved (Some tt))
         Examples.two_selected [])
  = Upload.mkState [] (Upload.mkFormData "" "").
Proof.
  destruct (submit_reset_ignores_outcome (fun _ => Rejected None) (fun _ => Resolved (Some tt))
              Examples.two_selected []
              ltac:(discriminate)) as [Hreset _].
  apply Hreset. repeat constructor; discriminate.
Defined.

(** X15.  Removing a file from the selection takes out every entry with
    that identifier and nothing else, in place; doing it twice changes
    nothing more; and a later submit uploads exactly the files of the
    entries that were left. *)
Theorem removed_file_not_uploaded (fileId : string)
    (reply_for : File -> Reply unit)
    (refresh_for : File -> Reply (option unit))
    (st : Upload.State) :
  let kept := List.filter (fun o => negb (String.eqb (Upload.id o) fileId))
                (Upload.uploadedFiles st) in
  Upload.uploadedFiles (Upload.removeFile fileId st) = kept /\
  (forall o, In o kept <-> In o (Upload.uploadedFiles st) /\ Upload.id o <> fileId) /\
  Upload.removeFile fileId (Upload.removeFile fileId st) = Upload.removeFile fileId st /\
  uploads (effects_of (Upload.handleSubmit reply_for refresh_for (Upload.removeFile fileId st)))
  = List.map Upload.file kept.
Proof.
  intros kept. split; [reflexivity|]. split; [|split].
  - intros o. unfold kept. rewrite filter_In, negb_true_iff, String.eqb_neq. reflexivity.
  - unfold Upload.removeFile. simpl. f_equal.
    induction (Upload.uploadedFiles st) as [|o l IH]; simpl; [reflexivity|].
    destruct (negb (String.eqb (Upload.id o) fileId)) eqn:E; simpl.
    + rewrite E. f_equal. exact IH.
    + exact IH.
  - unfold effects_of, Upload.handleSubmit.
    change (Upload.uploadedFiles (Upload.removeFile fileId st)) with kept.
    destruct kept as [|o rest] eqn:E; [reflexivity|].
    unfold bind.
    pose proof (upload_each_spec reply_for refresh_for (Upload.formData (Upload.removeFile fileId st))
                  (o :: rest) (o :: rest) []) as [_ Hu].
    destruct (Upload.upload_each reply_for refresh_for _ (o :: rest) (o :: rest) []) as [files log'].
    simpl in Hu. destruct (existsb _ _); exact Hu.
Qed.

Lemma is_extension_dot (x y : string) :
  Upload.is_extension (x +:+ String "." y) = false.
Proof.
  induction x as [|c x IH]; simpl.
  - reflexivity.
  - rewrite IH. apply andb_false_r.
Qed.

(** X16.  The title proposed for a dropped file is its name without the
    last extension: a name that ends in a dot and a non-empty run of
    characters other than dot and slash loses exactly that ending, also when
    what is left has dots of its own; a name without any dot stays as it
    is. *)
Theorem remove_extension_strips_last (base ext name : string) :
  (ext <> "" -> Upload.is_extension ext = true ->
     Upload.remove_extension (base +:+ String "." ext) = base) /\
  ((forall c, In c (list_ascii_of_string name) -> c <> "."%char) ->
     Upload.remove_extension name = name).
Proof.
  split.
  - intros Hne Hext. apply String.eqb_neq in Hne.
    induction base as [|c base IH]; simpl.
    + rewrite Hne, Hext. reflexivity.
    + rewrite is_extension_dot, andb_false_r, IH. reflexivity.
  - induction name as [|c name IH]; intros Hdots; simpl; [reflexivity|].
    assert (Hc : Ascii.eqb c "." = false).
    { apply Ascii.eqb_neq. apply Hdots. left. reflexivity. }
    rewrite Hc. simpl. f_equal. apply IH.
    intros c' Hc'. apply Hdots. right. exact Hc'.
Qed.

Lemma remove_extension_strips_last_witness :
  Upload.remove_extension "report.final.pdf" = "report.final" /\
  Upload.remove_extension "README" = "README".
Proof.
  split.
  - apply (proj1 (remove_extension_strips_last "report.final" "pdf" ""));
      [discriminate | reflexivity].
  - apply (proj2 (remove_extension_strips_last "" "" "README")).
    intros c Hc. simpl in Hc.
    repeat (destruct Hc as [<- | Hc]; [discriminate|]). destruct Hc.
Defined.

(** X17.  Dropping files never touches a title the user has typed and never
    changes the entries already selected; the title is proposed from the
    file name only when the title is empty and exactly one file was
    accepted, and the description is kept in every case. *)
Theorem drop_keeps_typed_title (random : nat -> string) (accepted : list File)
    (st : Upload.State) :
  let st' := Upload.onDrop random accepted st in
  (exists added, Upload.uploadedFiles st' = Upload.uploadedFiles st ++ added /\
                 List.map Upload.file added = accepted /\
                 Forall (fun o => Upload.status o = "pending") added) /\
  Upload.description (Upload.formData st') = Upload.description (Upload.formData st) /\
  (Upload.title (Upload.formData st) <> "" -> Upload.formData st' = Upload.formData st) /\
  (length accepted <> 1 -> Upload.formData st' = Upload.formData st) /\
  (forall f, Upload.title (Upload.formData st) = "" -> accepted = [f] ->
     Upload.title (Upload.formData st') = Upload.remove_extension (name f)).
Proof.
  intros st'. subst st'. unfold Upload.onDrop. simpl.
  split; [|split; [|split; [|split]]].
  - eexists. split; [reflexivity|]. split.
    + apply imap_files. reflexivity.
    + clear. revert random. induction accepted as [|f l IH]; intros random; simpl;
        constructor; [reflexivity | apply (IH (fun i => random (S i)))].
  - destruct accepted as [|f [|g l]]; try reflexivity.
    destruct (String.eqb (Upload.title (Upload.formData st)) ""); reflexivity.
  - intros Ht. apply String.eqb_neq in Ht.
    destruct accepted as [|f [|g l]]; try reflexivity. rewrite Ht. reflexivity.
  - intros Hlen. destruct accepted as [|f [|g l]]; try reflexivity.
    simpl in Hlen. congruence.
  - intros f Ht ->. rewrite Ht. reflexivity.
Qed.

Lemma drop_keeps_typed_title_witness :
  Upload.formData (Upload.onDrop (fun _ => "c3") [Examples.report] Examples.two_selected)
  = Upload.mkFormData "Quarterly" "" /\
  Upload.title (Upload.formData (Upload.onDrop (fun _ => "c3") [Examples.report] Upload.initial))
  = "report.final".
Proof.
  destruct (drop_keeps_typed_title (fun _ => "c3") [Examples.report] Examples.two_selected)
    as (_ & _ & Hkeep & _).
  destruct (drop_keeps_typed_title (fun _ => "c3") [Examples.report] Upload.initial)
    as (_ & _ & _ & _ & Hfill).
  split.
  - apply Hkeep. discriminate.
  - apply (Hfill Examples.report); reflexivity.
Defined.

(** ** The list of the Documents page *)

Lemma append_cons (c : ascii) (a b : string) : String c a +:+ b = String c (a +:+ b).
Proof. reflexivity. Qed.

Lemma prefix_spec (sub s : string) :
  String.prefix sub s = true <-> exists post, s = sub +:+ post.
Proof.
  revert s. induction sub as [|c sub IH]; intros s; simpl.
  - split; [intros _; exists s; reflexivity | intros _; destruct s; reflexivity].
  - destruct s as [|d s]; simpl.
    + split; [discriminate | intros [post H]; rewrite append_cons in H; discriminate].
    + destruct (ascii_dec c d) as [-> | Hne].
      * rewrite IH. split; intros [post H]; exists post; rewrite append_cons in *;
          congruence.
      * split; [discriminate | intros [post H]; rewrite append_cons in H; congruence].
Qed.

(** [includes] finds exactly the strings that occur somewhere in [s]. *)
Lemma includes_spec (s sub : string) :
  Library.includes s sub = true <-> exists pre post, s = pre +:+ sub +:+ post.
Proof.
  induction s as [|c s IH].
  - change (Library.includes "" sub) with (String.prefix sub "" || false).
    rewrite orb_false_r, prefix_spec. split.
    + intros [post H]. exists "", post. exact H.
    + intros [pre [post H]]. destruct pre as [|d pre].
      * exists post. exact H.
      * rewrite append_cons in H. discriminate.
  - change (Library.includes (String c s) sub)
      with (String.prefix sub (String c s) || Library.includes s sub).
    rewrite orb_true_iff, IH. split.
    + intros [Hp | [pre [post H]]].
      * apply (prefix_spec sub (String c s)) in Hp as [post H].
        exists "", post. exact H.
      * exists (String c pre), post. rewrite append_cons. congruence.
    + intros [pre [post H]]. destruct pre as [|d pre].
      * left. apply (prefix_spec sub (String c s)). exists post. exact H.
      * right. rewrite append_cons in H. injection H as _ H. exists pre, post. exact H.
Qed.

Lemma lower_ascii_idem (c : ascii) :
  Dropzone.lower_ascii (Dropzone.lower_ascii c) = Dropzone.lower_ascii c.
Proof. destruct c as [[] [] [] [] [] [] [] []]; reflexivity. Qed.

Lemma toLowerCase_idem (s : string) :
  Dropzone.toLowerCase (Dropzone.toLowerCase s) = Dropzone.toLowerCase s.
Proof.
  induction s as [|c s IH]; simpl; [reflexivity|].
  rewrite lower_ascii_idem, IH. reflexivity.
Qed.

Lemma toLowerCase_empty (s : string) :
  String.eqb (Dropzone.toLowerCase s) "" = String.eqb s "".
Proof. destruct s; reflexivity. Qed.

(** X18.  The Documents page lists exactly the documents that pass the
    filter, each once: a listed document is one of the context's documents,
    has the selected status unless the status filter is [all], and, when a
    search term is typed, has it (in lower case) in its lower-cased title,
    description or file type; with the filter [all] and no search term
    every document is listed. *)
Theorem library_lists_matching date_parse (st : Library.State) :
  let listed := Library.filteredAndSortedDocuments date_parse st in
  Permutation listed (List.filter (Library.shown st) (Library.documents st)) /\
  (forall doc, In doc listed <->
     In doc (Library.documents st) /\ Library.shown st doc = true) /\
  (forall doc, In doc listed -> Library.filter st <> "all" ->
     Library.status doc = Library.filter st) /\
  (forall doc, In doc listed -> Library.searchTerm st <> "" ->
     let term := Dropzone.toLowerCase (Library.searchTerm st) in
     Library.includes (Dropzone.toLowerCase (Library.title doc)) term = true \/
     (exists d, Library.description doc = Some d /\
                Library.includes (Dropzone.toLowerCase d) term = true) \/
     Library.includes (Dropzone.toLowerCase (Library.file_type doc)) term = true) /\
  (Library.filter st = "all" -> Library.searchTerm st = "" ->
     Permutation listed (Library.documents st)).
Proof.
  intros listed.
  assert (Hperm : Permutation listed (List.filter (Library.shown st) (Library.documents st)))
    by apply sort_perm.
  assert (Hin : forall doc, In doc listed <->
                  In doc (Library.documents st) /\ Library.shown st doc = true).
  { intros doc. rewrite <- filter_In. split; apply Permutation_in;
      [exact Hperm | symmetry; exact Hperm]. }
  split; [exact Hperm|]. split; [exact Hin|]. split; [|split].
  - intros doc Hdoc Hf. apply Hin in Hdoc as [_ Hshown].
    unfold Library.shown in Hshown. apply String.eqb_neq in Hf. rewrite Hf in Hshown.
    simpl in Hshown.
    destruct (String.eqb_spec (Library.status doc) (Library.filter st)) as [Heq | Hne];
      [exact Heq | discriminate].
  - intros doc Hdoc Ht term. apply Hin in Hdoc as [_ Hshown].
    unfold Library.shown in Hshown. apply String.eqb_neq in Ht. rewrite Ht in Hshown.
    destruct (negb (String.eqb (Library.filter st) "all")
              && negb (String.eqb (Library.status doc) (Library.filter st)));
      [discriminate|].
    simpl in Hshown. fold term in Hshown.
    apply orb_true_iff in Hshown as [Hshown | Htype]; [|right; right; exact Htype].
    apply orb_true_iff in Hshown as [Htitle | Hdesc]; [left; exact Htitle|].
    right; left. destruct (Library.description doc) as [d|]; [|discriminate].
    exists d. split; [reflexivity | exact Hdesc].
  - intros Hf Ht. rewrite Hperm.
    assert (Hall : List.filter (Library.shown st) (Library.documents st)
                   = Library.documents st).
    { apply forallb_filter_id. apply forallb_forall. intros doc _.
      unfold Library.shown. rewrite Hf, Ht. reflexivity. }
    rewrite Hall. reflexivity.
Qed.

Lemma library_lists_matching_witness :
  List.map Library.document_id
    (Library.filteredAndSortedDocuments Examples.parse Examples.library) = ["d1"; "d3"] /\
  (forall doc, In doc (Library.filteredAndSortedDocuments Examples.parse Examples.library) ->
     Library.status doc = "processed").
Proof.
  split; [reflexivity|].
  intros doc Hdoc.
  destruct (library_lists_matching Examples.parse Examples.library) as (_ & _ & Hstatus & _).
  apply (Hstatus doc Hdoc). discriminate.
Defined.

(** X19.  The search of the Documents page ignores letter case on both
    sides: a search term and its lower-case form list the same documents,
    and so do a document and the same document with title, description and
    file type in lower case. *)
Theorem library_search_ignores_case (st : Library.State) (doc : Library.Doc) :
  let lowered_term :=
    Library.mkState (Library.documents st) (Library.sortBy st) (Library.sortOrder st)
      (Library.filter st) (Dropzone.toLowerCase (Library.searchTerm st)) in
  let lowered_doc :=
    Library.mkDoc (Library.document_id doc) (Dropzone.toLowerCase (Library.title doc))
      (option_map Dropzone.toLowerCase (Library.description doc))
      (Dropzone.toLowerCase (Library.file_type doc)) (Library.status doc)
      (Library.created_at doc) in
  Library.shown lowered_term doc = Library.shown st doc /\
  Library.shown st lowered_doc = Library.shown st doc.
Proof.
  unfold Library.shown. simpl.
  rewrite toLowerCase_empty, !toLowerCase_idem.
  split; [reflexivity|].
  destruct (Library.description doc); simpl; rewrite ?toLowerCase_idem; reflexivity.
Qed.

(** ** The session of the authentication context *)

Lemma authToken_nonempty (a b : string) : a +:+ " " +:+ b <> "".
Proof. destruct a; simpl; discriminate. Qed.

(** The token of the state is the stored one, and a user carries it. *)
Lemma auth_step_invariant ev (st : Auth.State) log :
  (Auth.stored st = Auth.token st /\
   forall u, Auth.user st = Some u ->
     Auth.token st = Some (Auth.user_token u) /\ Auth.user_token u <> "") ->
  let st' := fst (Auth.step ev st log) in
  Auth.stored st' = Auth.token st' /\
  forall u, Auth.user st' = Some u ->
    Auth.token st' = Some (Auth.user_token u) /\ Auth.user_token u <> "".
Proof.
  intros [Hs Hu].
  destruct ev as [reply e p | reply n e p | | ]; simpl.
  - unfold Auth.login, bind, emit, ret. destruct reply as [data | detail]; simpl.
    + split; [reflexivity|]. intros u [= <-]. simpl.
      split; [reflexivity | apply authToken_nonempty].
    + split; assumption.
  - unfold Auth.register, bind, emit, ret. destruct reply; simpl; split; assumption.
  - split; [reflexivity | discriminate].
  - unfold Auth.tokenEffect. destruct (Auth.token st) as [t|] eqn:Et; simpl.
    + destruct (String.eqb_spec t "") as [-> | Hne]; simpl; rewrite ?Et.
      * split; [exact Hs | exact Hu].
      * split; [exact Hs|]. intros u [= <-]. simpl.
        split; [reflexivity | exact Hne].
    + rewrite ?Et. split; [exact Hs | exact Hu].
Qed.

(** X20.  Through any sequence of logins, registrations, logouts and runs
    of the token effect, starting from whatever [localStorage] holds, the
    token of the context is the one in [localStorage], and whenever there
    is a user (the context is authenticated) the user carries exactly that
    token and it is not empty. *)
Theorem auth_token_consistent (evs : list Auth.Event) (stored0 : option string) :
  let st := fst (Auth.run evs (Auth.initial stored0) []) in
  Auth.stored st = Auth.token st /\
  (Auth.isAuthenticated st = true ->
   exists u, Auth.user st = Some u /\
             Auth.token st = Some (Auth.user_token u) /\ Auth.user_token u <> "").
Proof.
  assert (Hrun : forall evs st log,
    (Auth.stored st = Auth.token st /\
     forall u, Auth.user st = Some u ->
       Auth.token st = Some (Auth.user_token u) /\ Auth.user_token u <> "") ->
    let st' := fst (Auth.run evs st log) in
    Auth.stored st' = Auth.token st' /\
    forall u, Auth.user st' = Some u ->
      Auth.token st' = Some (Auth.user_token u) /\ Auth.user_token u <> "").
  { clear. induction evs as [|ev evs IH]; intros st log Hinv; simpl.
    - exact Hinv.
    - unfold bind. pose proof (auth_step_invariant ev st log Hinv) as Hstep.
      destruct (Auth.step ev st log) as [st1 log1]. apply IH. exact Hstep. }
  intros st. destruct (Hrun evs (Auth.initial stored0) []) as [Hs Hu].
  { split; [reflexivity | discriminate]. }
  split; [exact Hs|].
  unfold Auth.isAuthenticated. fold st.
  destruct (Auth.user st) as [u|] eqn:Eu; [|discriminate].
  intros _. exists u. split; [reflexivity | apply Hu; exact Eu].
Qed.

Lemma auth_token_consistent_witness :
  exists u,
    Auth.user (fst (Auth.run [Auth.Login (Resolved (Auth.mkLoginData (Some "abc") (Some "bearer")))
                                 "a@b.c" "secret"; Auth.TokenEffect]
                      (Auth.initial None) []))
    = Some u /\
    Auth.user_token u = "bearer abc".
Proof.
  destruct (auth_token_consistent
              [Auth.Login (Resolved (Auth.mkLoginData (Some "abc") (Some "bearer")))
                 "a@b.c" "secret"; Auth.TokenEffect] None) as [_ Hu].
  destruct (Hu eq_refl) as (u & Huser & Htok & _).
  exists u. split; [exact Huser|].
  vm_compute in Htok. injection Htok as Htok. symmetry. exact Htok.
Defined.

(** X21.  A logout ends the session for good: after it, registrations and
    runs of the token effect leave the context without user, without token
    and with nothing stored; only a login brings a session back. *)
Theorem logout_ends_session (evs : list Auth.Event) (st : Auth.State) (log : list Effect) :
  (forall reply email password, ~ In (Auth.Login reply email password) evs) ->
  let st' := fst (Auth.run (Auth.Logout :: evs) st log) in
  Auth.user st' = None /\ Auth.token st' = None /\ Auth.stored st' = None /\
  Auth.isAuthenticated st' = false.
Proof.
  intros Hno. simpl. unfold bind at 1. simpl.
  assert (Hrun : forall evs st log,
    (forall reply email password, ~ In (Auth.Login reply email password) evs) ->
    Auth.user st = None -> Auth.token st = None -> Auth.stored st = None ->
    let st' := fst (Auth.run evs st log) in
    Auth.user st' = None /\ Auth.token st' = None /\ Auth.stored st' = None).
  { clear. induction evs as [|ev evs IH]; intros st log Hno Hu Ht Hs; simpl.
    - auto.
    - unfold bind.
      assert (Hstep : Auth.user (fst (Auth.step ev st log)) = None /\
                      Auth.token (fst (Auth.step ev st log)) = None /\
                      Auth.stored (fst (Auth.step ev st log)) = None).
      { destruct ev as [reply e p | reply n e p | | ]; simpl.
        - exfalso. apply (Hno reply e p). left. reflexivity.
        - unfold Auth.register, bind, emit, ret. destruct reply; simpl; auto.
        - auto.
        - unfold Auth.tokenEffect. rewrite Ht. simpl. auto. }
      destruct (Auth.step ev st log) as [st1 log1]. simpl in Hstep.
      destruct Hstep as (Hu1 & Ht1 & Hs1).
      apply IH; try assumption.
      intros reply e p Hin. apply (Hno reply e p). right. exact Hin. }
  destruct (Hrun evs (Auth.logout st) log Hno eq_refl eq_refl eq_refl) as (Hu & Ht & Hs).
  unfold ret at 1. simpl.
  split; [exact Hu|]. split; [exact Ht|]. split; [exact Hs|].
  change (Auth.isAuthenticated (fst (Auth.run evs (Auth.logout st) log)) = false).
  unfold Auth.isAuthenticated. rewrite Hu. reflexivity.
Qed.

Lemma logout_ends_session_witness :
  Auth.isAuthenticated
    (fst (Auth.run [Auth.Logout; Auth.TokenEffect; Auth.Register (Resolved tt) "u" "a@b.c" "pw"]
            (Auth.mkState (Some (Auth.mkUser None "bearer abc")) (Some "bearer abc") false
               (Some "bearer abc")) []))
  = false.
Proof.
  apply (logout_ends_session
           [Auth.TokenEffect; Auth.Register (Resolved tt) "u" "a@b.c" "pw"]).
  intros reply email password [H | [H | []]]; discriminate.
Defined.
